(** * simplewallet client: a shallow embedding of
      [pyclient/wallet/simplewallet_client.py]

    The client loads a secp256k1 key, derives the account address, wraps a
    [deposit]/[withdraw] payload into a signed single-transaction batch and
    talks to the REST gateway.  Python values are modelled as follows:

    - [str] is a list of Unicode code points ([N]), [bytes] a list of
      [Byte.byte];
    - exceptions are values of [pyexn]; every operation that can raise lives
      in the monad [M], which threads the outside world (file system,
      gateway, clock, log of issued requests);
    - the external libraries (sawtooth_signing, protobuf messages, yaml and
      base64) are interfaces (type classes); [hashlib.sha512], [str.encode],
      [str.strip] and [float.hex] are written out. *)

From Stdlib Require Import List ZArith NArith Lia Bool String Ascii.
From Stdlib Require Import Strings.Byte.
From Stdlib Require Import DecimalString DecimalZ.
From Stdlib Require Import Floats.SpecFloat.
Import ListNotations.

Set Implicit Arguments.

(** ** Python [str] and [bytes] *)

Definition str := list N.
Definition bytes := list byte.

(** An ASCII literal of the source as a [str]. *)
Definition u (s : string) : str :=
  map N_of_ascii (list_ascii_of_string s).

Definition byte_of_N (n : N) : byte :=
  match Byte.of_N (n mod 256) with
  | Some b => b
  | None => x00
  end.

(** [a.startswith(p)] *)
Fixpoint startswith (a p : str) {struct p} : bool :=
  match p, a with
  | [], _ => true
  | _ :: _, [] => false
  | c :: p', d :: a' => (c =? d)%N && startswith a' p'
  end.

(** [sep.join(parts)] *)
Fixpoint join (sep : str) (parts : list str) : str :=
  match parts with
  | [] => []
  | [x] => x
  | x :: rest => x ++ sep ++ join sep rest
  end.

(** [str(n)] for an [int]. *)
Definition str_of_int (z : Z) : str :=
  u (NilZero.string_of_int (Z.to_int z)).

(** *** [str.isspace] on one code point, and [str.strip()] *)

Definition isspace (c : N) : bool :=
  ((9 <=? c) && (c <=? 13) || (28 <=? c) && (c <=? 32)
   || (c =? 0x85) || (c =? 0xA0) || (c =? 0x1680)
   || (0x2000 <=? c) && (c <=? 0x200A)
   || (c =? 0x2028) || (c =? 0x2029) || (c =? 0x202F)
   || (c =? 0x205F) || (c =? 0x3000))%N.

Fixpoint lstrip (s : str) : str :=
  match s with
  | [] => []
  | c :: s' => if isspace c then lstrip s' else s
  end.

Definition rstrip (s : str) : str := rev (lstrip (rev s)).

Definition strip (s : str) : str := rstrip (lstrip s).

(** A string that neither starts nor ends with white space. *)
Definition trimmed (s : str) : bool :=
  match s with
  | [] => true
  | c :: _ => negb (isspace c) && negb (isspace (last s c))
  end.

(** *** [str.encode('utf-8')]

    A lone surrogate cannot be encoded: Python raises [UnicodeEncodeError],
    here the result is [None]. *)

Definition utf8_char (c : N) : option bytes :=
  (if c <? 0x80 then Some [byte_of_N c]
   else if c <? 0x800 then
     Some [byte_of_N (0xC0 + c / 64); byte_of_N (0x80 + c mod 64)]
   else if (0xD800 <=? c) && (c <=? 0xDFFF) then None
   else if c <? 0x10000 then
     Some [byte_of_N (0xE0 + c / 4096); byte_of_N (0x80 + (c / 64) mod 64);
           byte_of_N (0x80 + c mod 64)]
   else if c <? 0x110000 then
     Some [byte_of_N (0xF0 + c / 262144); byte_of_N (0x80 + (c / 4096) mod 64);
           byte_of_N (0x80 + (c / 64) mod 64); byte_of_N (0x80 + c mod 64)]
   else None)%N.

Fixpoint utf8_encode (s : str) : option bytes :=
  match s with
  | [] => Some []
  | c :: s' =>
      match utf8_char c, utf8_encode s' with
      | Some b, Some bs => Some (b ++ bs)
      | _, _ => None
      end
  end.

(** Code points below 128 encode as themselves. *)
Definition is_ascii (s : str) : bool := forallb (fun c => (c <? 128)%N) s.

(** *** Hexadecimal rendering *)

Definition hexchar (d : N) : N :=
  (if d <? 10 then 48 + d else 87 + d)%N.

Definition is_hexchar (c : N) : bool :=
  ((48 <=? c) && (c <=? 57) || (97 <=? c) && (c <=? 102))%N.

Definition is_hex (s : str) : bool := forallb is_hexchar s.

(** [n] hexadecimal digits of [v], most significant first. *)
Fixpoint hex_digits (n : nat) (v : N) : str :=
  match n with
  | O => []
  | S n' => hex_digits n' (v / 16) ++ [hexchar (v mod 16)]
  end.

(** [binascii.hexlify(b).decode()], also what [hexdigest()] does. *)
Definition hexlify (b : bytes) : str :=
  flat_map (fun x => hex_digits 2 (Byte.to_N x)) b.

(** ** [hashlib.sha512] (FIPS 180-4), on 64-bit words held in [Z] *)

Module SHA512.
Local Open Scope Z_scope.

Definition mask64 : Z := 0xffffffffffffffff.

Definition w64 (x : Z) : Z := Z.land x mask64.

Definition add64 (x y : Z) : Z := w64 (x + y).

Definition rotr (n x : Z) : Z :=
  Z.lor (Z.shiftr x n) (w64 (Z.shiftl x (64 - n))).

Definition not64 (x : Z) : Z := Z.lxor x mask64.

Definition Ch (x y z : Z) : Z :=
  Z.lxor (Z.land x y) (Z.land (not64 x) z).

Definition Maj (x y z : Z) : Z :=
  Z.lxor (Z.lxor (Z.land x y) (Z.land x z)) (Z.land y z).

Definition Sigma0 (x : Z) : Z :=
  Z.lxor (Z.lxor (rotr 28 x) (rotr 34 x)) (rotr 39 x).

Definition Sigma1 (x : Z) : Z :=
  Z.lxor (Z.lxor (rotr 14 x) (rotr 18 x)) (rotr 41 x).

Definition sigma0 (x : Z) : Z :=
  Z.lxor (Z.lxor (rotr 1 x) (rotr 8 x)) (Z.shiftr x 7).

Definition sigma1 (x : Z) : Z :=
  Z.lxor (Z.lxor (rotr 19 x) (rotr 61 x)) (Z.shiftr x 6).

Definition K : list Z :=
  [ 0x428a2f98d728ae22; 0x7137449123ef65cd; 0xb5c0fbcfec4d3b2f; 0xe9b5dba58189dbbc;
    0x3956c25bf348b538; 0x59f111f1b605d019; 0x923f82a4af194f9b; 0xab1c5ed5da6d8118;
    0xd807aa98a3030242; 0x12835b0145706fbe; 0x243185be4ee4b28c; 0x550c7dc3d5ffb4e2;
    0x72be5d74f27b896f; 0x80deb1fe3b1696b1; 0x9bdc06a725c71235; 0xc19bf174cf692694;
    0xe49b69c19ef14ad2; 0xefbe4786384f25e3; 0x0fc19dc68b8cd5b5; 0x240ca1cc77ac9c65;
    0x2de92c6f592b0275; 0x4a7484aa6ea6e483; 0x5cb0a9dcbd41fbd4; 0x76f988da831153b5;
    0x983e5152ee66dfab; 0xa831c66d2db43210; 0xb00327c898fb213f; 0xbf597fc7beef0ee4;
    0xc6e00bf33da88fc2; 0xd5a79147930aa725; 0x06ca6351e003826f; 0x142929670a0e6e70;
    0x27b70a8546d22ffc; 0x2e1b21385c26c926; 0x4d2c6dfc5ac42aed; 0x53380d139d95b3df;
    0x650a73548baf63de; 0x766a0abb3c77b2a8; 0x81c2c92e47edaee6; 0x92722c851482353b;
    0xa2bfe8a14cf10364; 0xa81a664bbc423001; 0xc24b8b70d0f89791; 0xc76c51a30654be30;
    0xd192e819d6ef5218; 0xd69906245565a910; 0xf40e35855771202a; 0x106aa07032bbd1b8;
    0x19a4c116b8d2d0c8; 0x1e376c085141ab53; 0x2748774cdf8eeb99; 0x34b0bcb5e19b48a8;
    0x391c0cb3c5c95a63; 0x4ed8aa4ae3418acb; 0x5b9cca4f7763e373; 0x682e6ff3d6b2b8a3;
    0x748f82ee5defb2fc; 0x78a5636f43172f60; 0x84c87814a1f0ab72; 0x8cc702081a6439ec;
    0x90befffa23631e28; 0xa4506cebde82bde9; 0xbef9a3f7b2c67915; 0xc67178f2e372532b;
    0xca273eceea26619c; 0xd186b8c721c0c207; 0xeada7dd6cde0eb1e; 0xf57d4f7fee6ed178;
    0x06f067aa72176fba; 0x0a637dc5a2c898a6; 0x113f9804bef90dae; 0x1b710b35131c471b;
    0x28db77f523047d84; 0x32caab7b40c72493; 0x3c9ebe0a15c9bebc; 0x431d67c49c100d4c;
    0x4cc5d4becb3e42b6; 0x597f299cfc657e2a; 0x5fcb6fab3ad6faec; 0x6c44198c4a475817 ].

(** The eight working variables. *)
Definition state : Type := (Z * Z * Z * Z * Z * Z * Z * Z)%type.

Definition H0 : state :=
  (0x6a09e667f3bcc908, 0xbb67ae8584caa73b, 0x3c6ef372fe94f82b, 0xa54ff53a5f1d36f1,
   0x510e527fade682d1, 0x9b05688c2b3e6c1f, 0x1f83d9abfb41bd6b, 0x5be0cd19137e2179).

(** Big-endian value of a run of bytes. *)
Definition be_value (bs : bytes) : Z :=
  fold_left (fun acc b => acc * 256 + Z.of_N (Byte.to_N b)) bs 0.

(** [n] bytes of [v], big-endian. *)
Fixpoint be_bytes (n : nat) (v : Z) : bytes :=
  match n with
  | O => []
  | S n' => be_bytes n' (v / 256) ++ [byte_of_N (Z.to_N (v mod 256))]
  end.

(** Padding: 0x80, zeros up to 112 mod 128, the bit length on 128 bits. *)
Definition pad (msg : bytes) : bytes :=
  let l := Z.of_nat (List.length msg) in
  let z := Z.to_nat ((111 - l) mod 128) in
  msg ++ [x80] ++ repeat x00 z ++ be_bytes 16 (8 * l).

(** The words of one block: [n] words of 8 bytes each. *)
Fixpoint words (n : nat) (bs : bytes) : list Z :=
  match n with
  | O => []
  | S n' => be_value (firstn 8 bs) :: words n' (skipn 8 bs)
  end.

(** The message schedule: [win] holds the last 16 words, oldest first. *)
Fixpoint schedule (n : nat) (win : list Z) : list Z :=
  match n with
  | O => []
  | S n' =>
      let w := add64 (add64 (add64 (sigma1 (nth 14 win 0)) (nth 9 win 0))
                            (sigma0 (nth 1 win 0))) (nth 0 win 0) in
      w :: schedule n' (tl win ++ [w])
  end.

Definition round (s : state) (kw : Z * Z) : state :=
  let '(a, b, c, d, e, f, g, h) := s in
  let t1 := add64 (add64 (add64 (add64 h (Sigma1 e)) (Ch e f g)) (fst kw)) (snd kw) in
  let t2 := add64 (Sigma0 a) (Maj a b c) in
  (add64 t1 t2, a, b, c, add64 d t1, e, f, g).

Definition compress (s : state) (block : bytes) : state :=
  let w16 := words 16 block in
  let w := w16 ++ schedule 64 w16 in
  let '(a, b, c, d, e, f, g, h) := fold_left round (combine K w) s in
  let '(a0, b0, c0, d0, e0, f0, g0, h0) := s in
  (add64 a0 a, add64 b0 b, add64 c0 c, add64 d0 d,
   add64 e0 e, add64 f0 f, add64 g0 g, add64 h0 h).

Fixpoint blocks (n : nat) (s : state) (bs : bytes) : state :=
  match n with
  | O => s
  | S n' => blocks n' (compress s (firstn 128 bs)) (skipn 128 bs)
  end.

Definition digest (msg : bytes) : bytes :=
  let p := pad msg in
  let '(a, b, c, d, e, f, g, h) := blocks (List.length p / 128) H0 p in
  be_bytes 8 a ++ be_bytes 8 b ++ be_bytes 8 c ++ be_bytes 8 d ++
  be_bytes 8 e ++ be_bytes 8 f ++ be_bytes 8 g ++ be_bytes 8 h.
End SHA512.

(** [_hash(data)]: [hashlib.sha512(data).hexdigest()] *)
Definition _hash (data : bytes) : str := hexlify (SHA512.digest data).

Definition FAMILY_NAME : str := u "simplewallet".

(** ** [float.hex()]

    [time.time()] returns a binary64 float, here a [spec_float]
    ([S754_finite s m e] stands for [(-1)^s * m * 2^e]).  A normal number
    prints as [0x1.<13 hex digits>p<exponent>], a subnormal one as
    [0x0.<13 hex digits>p-1022]. *)

Definition float_hex (x : spec_float) : str :=
  match x with
  | S754_nan => u "nan"
  | S754_infinity s => if s then u "-inf" else u "inf"
  | S754_zero s => (if s then u "-" else []) ++ u "0x0.0p+0"
  | S754_finite s m e =>
      let normal := (2 ^ 52 <=? Zpos m)%Z in
      let ex := if normal then (e + 52)%Z else (-1022)%Z in
      (if s then u "-" else []) ++ u "0x"
        ++ (if normal then u "1" else u "0") ++ u "."
        ++ hex_digits 13 (Npos m mod 2 ^ 52)
        ++ u "p" ++ (if (ex <? 0)%Z then u "-" else u "+")
        ++ str_of_int (Z.abs ex)
  end.

(** The floats of the binary64 format. *)
Definition binary64 (x : spec_float) : bool := valid_binary 53 1024 x.

(** ** Exceptions *)

(** Modelled from the spec: [wallet/simplewallet_exceptions.py] is not among
    the sources; [SimpleWalletException] is the one error kind the client
    raises itself (the spec's configuration error and submission error),
    an exception built from a single argument, a message or another
    exception. *)
Inductive pyexn : Type :=
| OSError (msg : str)                (* raised by [open] and [read] *)
| ParseError (msg : str)             (* sawtooth_signing.ParseError *)
| ConnectionError (msg : str)        (* requests.ConnectionError *)
| AttributeError (msg : str)
| UnicodeEncodeError (msg : str)
| OtherException (cls msg : str)     (* any other class, by name *)
| SimpleWalletException (arg : exn_arg)
with exn_arg : Type :=
| Msg (s : str)
| Exc (e : pyexn).

(** [str(err)] *)
Fixpoint str_exn (e : pyexn) : str :=
  match e with
  | OSError m | ParseError m | ConnectionError m | AttributeError m
  | UnicodeEncodeError m | OtherException _ m => m
  | SimpleWalletException (Msg s) => s
  | SimpleWalletException (Exc e') => str_exn e'
  end.

Definition is_SimpleWalletException (e : pyexn) : bool :=
  match e with SimpleWalletException _ => true | _ => false end.

Inductive outcome (A : Type) : Type :=
| Return (a : A)
| Raise (e : pyexn).
Arguments Raise {A} e.

(** ** Protobuf messages of the ledger framework *)

Module TransactionHeader.
Record t := {
  signer_public_key : str;
  family_name : str;
  family_version : str;
  inputs : list str;
  outputs : list str;
  dependencies : list str;
  payload_sha512 : str;
  batcher_public_key : str;
  nonce : bytes }.
End TransactionHeader.

Module Transaction.
Record t := {
  header : bytes;
  payload : bytes;
  header_signature : str }.
End Transaction.

Module BatchHeader.
Record t := {
  signer_public_key : str;
  transaction_ids : list str }.
End BatchHeader.

Module Batch.
Record t := {
  header : bytes;
  transactions : list Transaction.t;
  header_signature : str }.
End Batch.

Module BatchList.
Record t := { batches : list Batch.t }.
End BatchList.

(** [message.SerializeToString()] *)
Class Message (A : Type) := SerializeToString : A -> bytes.

(** ** sawtooth_signing *)

Class Signing := {
  PrivateKey : Type;
  (** [Secp256k1PrivateKey.from_hex] *)
  from_hex : str -> outcome PrivateKey;
  (** [signer.get_public_key().as_bytes()] *)
  public_key_bytes : PrivateKey -> bytes;
  (** [signer.sign(message)] *)
  sign : PrivateKey -> bytes -> str }.

(** ** yaml and base64, as [balance] uses them *)

Class Decoding := {
  pyobject : Type;
  yaml_safe_load : str -> outcome pyobject;
  getitem : pyobject -> str -> outcome pyobject;
  b64decode : pyobject -> outcome bytes }.

(** ** The outside world *)

Inductive http_method := GET | POST.

Record Request := {
  method : http_method;
  url : str;
  headers : list (str * str);
  data : option bytes }.

Record Response := {
  ok : bool;
  status_code : Z;
  reason : str;
  text : str }.

Record World := {
  (** [open(path).read()] *)
  files : str -> outcome str;
  (** what the transport answers to a request, given the earlier ones *)
  gateway : list Request -> Request -> outcome Response;
  (** the successive readings of [time.time()] *)
  clock : nat -> spec_float;
  ticks : nat;
  (** the requests issued so far, oldest first *)
  sent : list Request }.

(** ** The monad of operations that raise and act on the world *)

Definition M (A : Type) : Type := World -> outcome A * World.

Definition ret {A} (a : A) : M A := fun w => (Return a, w).

Definition raise {A} (e : pyexn) : M A := fun w => (Raise e, w).

Definition bind {A B} (m : M A) (k : A -> M B) : M B :=
  fun w =>
    match m w with
    | (Return a, w') => k a w'
    | (Raise e, w') => (Raise e, w')
    end.

(** [try: m  except ... as err: h err]; a handler re-raises what its
    clauses do not match. *)
Definition try_except {A} (m : M A) (h : pyexn -> M A) : M A :=
  fun w =>
    match m w with
    | (Return a, w') => (Return a, w')
    | (Raise e, w') => h e w'
    end.

Definition lift {A} (o : outcome A) : M A := fun w => (o, w).

Notation "x <- c ;; k" := (bind c (fun x => k))
  (at level 61, c at next level, right associativity).

Definition open_read (path : str) : M str :=
  fun w => (files w path, w).

(** The world after one more reading of the clock. *)
Definition tick (w : World) : World :=
  {| files := files w; gateway := gateway w; clock := clock w;
     ticks := S (ticks w); sent := sent w |}.

(** The world after request [r] was issued. *)
Definition issue (w : World) (r : Request) : World :=
  {| files := files w; gateway := gateway w; clock := clock w;
     ticks := ticks w; sent := sent w ++ [r] |}.

Definition time_time : M spec_float :=
  fun w => (Return (clock w (ticks w)), tick w).

Definition requests_send (r : Request) : M Response :=
  fun w => (gateway w (sent w) r, issue w r).

Definition requests_get (url : str) (headers : list (str * str)) : M Response :=
  requests_send {| method := GET; url := url; headers := headers; data := None |}.

Definition requests_post (url : str) (headers : list (str * str)) (data : bytes)
  : M Response :=
  requests_send {| method := POST; url := url; headers := headers; data := Some data |}.

(** [s.encode()] *)
Definition encode (s : str) : M bytes :=
  match utf8_encode s with
  | Some b => ret b
  | None => raise (UnicodeEncodeError (u "surrogates not allowed"))
  end.

(** ** Values handed to [deposit] and [withdraw], and [str(value)] *)

Inductive pyvalue :=
| PyInt (z : Z)
| PyStr (s : str)
| PyBool (b : bool)
| PyNone.

Definition py_str (v : pyvalue) : str :=
  match v with
  | PyInt z => str_of_int z
  | PyStr s => s
  | PyBool b => if b then u "True" else u "False"
  | PyNone => u "None"
  end.

(** ** The client *)

Section Client.
Context {signing : Signing} {decoding : Decoding}.
Context {ser_th : Message TransactionHeader.t}
        {ser_bh : Message BatchHeader.t}
        {ser_bl : Message BatchList.t}.

(** [CryptoFactory(create_context('secp256k1')).new_signer(privateKey)] *)
Record Signer := new_signer { private_key : PrivateKey }.

(** [signer.get_public_key().as_hex()] *)
Definition as_hex (s : Signer) : str :=
  hexlify (public_key_bytes (private_key s)).

(** The attributes of a client object.  [_signer] holds [None] or a
    signer; [_publicKey] and [_address] are [None] here when the attribute
    was never assigned. *)
Record SimpleWalletClient := {
  _baseUrl : str;
  _signer : option Signer;
  _publicKey : option str;
  _address : option str }.

Definition no_attribute (name : string) : pyexn :=
  AttributeError
    (u "'SimpleWalletClient' object has no attribute '" ++ u name ++ u "'").

Definition get_publicKey (self : SimpleWalletClient) : M str :=
  match _publicKey self with
  | Some k => ret k
  | None => raise (no_attribute "_publicKey")
  end.

Definition get_address (self : SimpleWalletClient) : M str :=
  match _address self with
  | Some a => ret a
  | None => raise (no_attribute "_address")
  end.

(** [self._signer.sign(message)] *)
Definition signer_sign (self : SimpleWalletClient) (message : bytes) : M str :=
  match _signer self with
  | Some s => ret (sign (private_key s) message)
  | None =>
      raise (AttributeError (u "'NoneType' object has no attribute 'sign'"))
  end.

(** The address expression of [__init__], for any namespace. *)
Definition make_address (namespace publicKey : str) : M str :=
  ns <- encode namespace ;;
  pk <- encode publicKey ;;
  ret (firstn 6 (_hash ns) ++ firstn 64 (_hash pk)).

Definition __init__ (baseUrl : str) (keyFile : option str)
  : M SimpleWalletClient :=
  match keyFile with
  | None =>
      ret {| _baseUrl := baseUrl; _signer := None;
             _publicKey := None; _address := None |}
  | Some keyFile =>
      privateKeyStr <-
        try_except
          (contents <- open_read keyFile ;; ret (strip contents))
          (fun err =>
             match err with
             | OSError _ =>
                 raise (SimpleWalletException (Msg
                   (u "Failed to read private key " ++ keyFile ++ u ": "
                      ++ str_exn err)))
             | _ => raise err
             end) ;;
      privateKey <-
        try_except
          (lift (from_hex privateKeyStr))
          (fun e =>
             match e with
             | ParseError _ =>
                 raise (SimpleWalletException (Msg
                   (u "Failed to load private key: " ++ str_exn e)))
             | _ => raise e
             end) ;;
      let signer := new_signer privateKey in
      let publicKey := as_hex signer in
      address <- make_address FAMILY_NAME publicKey ;;
      ret {| _baseUrl := baseUrl; _signer := Some signer;
             _publicKey := Some publicKey; _address := Some address |}
  end.

Definition request_url (baseUrl suffix : str) : str :=
  if startswith baseUrl (u "http://")
  then baseUrl ++ u "/" ++ suffix
  else u "http://" ++ baseUrl ++ u "/" ++ suffix.

Definition _send_to_restapi (self : SimpleWalletClient) (suffix : str)
    (data : option bytes) (contentType : option str) : M str :=
  let url := request_url (_baseUrl self) suffix in
  let headers :=
    match contentType with
    | Some ct => [(u "Content-Type", ct)]
    | None => []
    end in
  result <-
    try_except
      (result <-
         match data with
         | Some d => requests_post url headers d
         | None => requests_get url headers
         end ;;
       if negb (ok result)
       then raise (SimpleWalletException (Msg
              (u "Error " ++ str_of_int (status_code result) ++ u ": "
                 ++ reason result)))
       else ret result)
      (fun err =>
         match err with
         | ConnectionError _ =>
             raise (SimpleWalletException (Msg
               (u "Failed to connect to " ++ url ++ u ": " ++ str_exn err)))
         | _ => raise (SimpleWalletException (Exc err))
         end) ;;
  ret (text result).

(** The transaction header built by [_wrap_and_send]. *)
Definition transaction_header (publicKey address : str) (payload nonce : bytes)
  : TransactionHeader.t :=
  {| TransactionHeader.signer_public_key := publicKey;
     TransactionHeader.family_name := FAMILY_NAME;
     TransactionHeader.family_version := u "1.0";
     TransactionHeader.inputs := [address];
     TransactionHeader.outputs := [address];
     TransactionHeader.dependencies := [];
     TransactionHeader.payload_sha512 := _hash payload;
     TransactionHeader.batcher_public_key := publicKey;
     TransactionHeader.nonce := nonce |}.

(** The expression [TransactionHeader(...)] of [_wrap_and_send]: it reads
    the public key and the clock. *)
Definition new_transaction_header (self : SimpleWalletClient)
    (address : str) (payload : bytes) : M TransactionHeader.t :=
  publicKey <- get_publicKey self ;;
  now <- time_time ;;
  nonce <- encode (float_hex now) ;;
  ret (transaction_header publicKey address payload nonce).

(** Lines 131-171 of the source: the batch list for [(action, value)]. *)
Definition wrap (self : SimpleWalletClient) (action : str) (value : pyvalue)
  : M BatchList.t :=
  payload <- encode (join (u ",") [action; py_str value]) ;;
  address <- get_address self ;;
  transaction_header <- new_transaction_header self address payload ;;
  let header := SerializeToString transaction_header in
  signature <- signer_sign self header ;;
  let transaction :=
    {| Transaction.header := header;
       Transaction.payload := payload;
       Transaction.header_signature := signature |} in
  let transactionList := [transaction] in
  publicKey <- get_publicKey self ;;
  let header :=
    SerializeToString
      {| BatchHeader.signer_public_key := publicKey;
         BatchHeader.transaction_ids :=
           map Transaction.header_signature transactionList |} in
  signature <- signer_sign self header ;;
  let batch :=
    {| Batch.header := header;
       Batch.transactions := transactionList;
       Batch.header_signature := signature |} in
  ret {| BatchList.batches := [batch] |}.

Definition _wrap_and_send (self : SimpleWalletClient) (action : str)
    (value : pyvalue) : M str :=
  batch_list <- wrap self action value ;;
  _send_to_restapi self (u "batches")
    (Some (SerializeToString batch_list))
    (Some (u "application/octet-stream")).

Definition deposit (self : SimpleWalletClient) (value : pyvalue) : M str :=
  _wrap_and_send self (u "deposit") value.

Definition withdraw (self : SimpleWalletClient) (value : pyvalue) : M str :=
  _wrap_and_send self (u "withdraw") value.

(** [None] is Python's [None], [Some b] the decoded bytes. *)
Definition balance (self : SimpleWalletClient) : M (option bytes) :=
  address <- get_address self ;;
  result <- _send_to_restapi self (u "state/" ++ address) None None ;;
  try_except
    (document <- lift (yaml_safe_load result) ;;
     field <- lift (getitem document (u "data")) ;;
     decoded <- lift (b64decode field) ;;
     ret (Some decoded))
    (fun _ => ret None).

(** *** The envelope of the specification (section 4.1, steps 3 to 5)

    The transaction pairs the serialized header, the payload and the
    signature of the header; the batch header lists the signer key and the
    transaction signatures; the batch list holds the one signed batch. *)
Definition envelope (key : PrivateKey) (publicKey : str)
    (th : TransactionHeader.t) (payload : bytes) : BatchList.t :=
  let txn :=
    {| Transaction.header := SerializeToString th;
       Transaction.payload := payload;
       Transaction.header_signature := sign key (SerializeToString th) |} in
  let bh :=
    {| BatchHeader.signer_public_key := publicKey;
       BatchHeader.transaction_ids := [Transaction.header_signature txn] |} in
  {| BatchList.batches :=
       [ {| Batch.header := SerializeToString bh;
            Batch.transactions := [txn];
            Batch.header_signature := sign key (SerializeToString bh) |} ] |}.

(** The request [_send_to_restapi] hands to the transport. *)
Definition rest_request (baseUrl suffix : str) (data : option bytes)
    (contentType : option str) : Request :=
  {| method := match data with Some _ => POST | None => GET end;
     url := request_url baseUrl suffix;
     headers :=
       match contentType with
       | Some ct => [(u "Content-Type", ct)]
       | None => []
       end;
     data := data |}.

(** What [_send_to_restapi] makes of the transport's answer. *)
Definition rest_result (url : str) (answer : outcome Response) : outcome str :=
  match answer with
  | Return r =>
      if ok r then Return (text r)
      else Raise (SimpleWalletException (Exc (SimpleWalletException (Msg
             (u "Error " ++ str_of_int (status_code r) ++ u ": "
                ++ reason r)))))
  | Raise (ConnectionError m) =>
      Raise (SimpleWalletException (Msg
        (u "Failed to connect to " ++ url ++ u ": " ++ m)))
  | Raise err => Raise (SimpleWalletException (Exc err))
  end.

(** The POST that submits a batch list. *)
Definition submission (baseUrl : str) (batch_list : BatchList.t) : Request :=
  {| method := POST;
     url := request_url baseUrl (u "batches");
     headers := [(u "Content-Type", u "application/octet-stream")];
     data := Some (SerializeToString batch_list) |}.

(** A client as [__init__] leaves it when a key file was given. *)
Definition keyed (self : SimpleWalletClient) (key : PrivateKey)
    (publicKey address : str) : Prop :=
  _signer self = Some (new_signer key)
  /\ _publicKey self = Some publicKey
  /\ _address self = Some address.

End Client.

(** ** The specification's reading of the base URL

    "prefixes [http://] if no scheme present": a scheme is a letter followed
    by letters, digits, [+], [-] or [.], and then [://] (RFC 3986). *)

Definition is_alpha (c : N) : bool :=
  ((65 <=? c) && (c <=? 90) || (97 <=? c) && (c <=? 122))%N.

Definition is_scheme_char (c : N) : bool :=
  (is_alpha c || (48 <=? c) && (c <=? 57)
   || (c =? 43) || (c =? 45) || (c =? 46))%N.

Fixpoint scheme_rest (s : str) : bool :=
  match s with
  | [] => false
  | c :: s' =>
      if startswith s (u "://") then true
      else if is_scheme_char c then scheme_rest s' else false
  end.

Definition scheme_present (baseUrl : str) : bool :=
  match baseUrl with
  | c :: s' => is_alpha c && scheme_rest s'
  | [] => false
  end.

Definition spec_request_url (baseUrl suffix : str) : str :=
  if scheme_present baseUrl
  then baseUrl ++ u "/" ++ suffix
  else u "http://" ++ baseUrl ++ u "/" ++ suffix.

(** ** Stand-ins for the external libraries and the outside world

    Small executable instances of the interfaces, on which the operations
    are run in the examples: a signer keyed by 32 bytes (the signature is a
    digest of key and message, not ECDSA), a tag-length-value serializer, a
    loader for one-line [key: value] documents and a base64 decoder. *)

Module Fixture.

Fixpoint str_eqb (a b : str) : bool :=
  match a, b with
  | [], [] => true
  | c :: a', d :: b' => (c =? d)%N && str_eqb a' b'
  | _, _ => false
  end.

Definition unhex_char (c : N) : option N :=
  (if (48 <=? c) && (c <=? 57) then Some (c - 48)
   else if (97 <=? c) && (c <=? 102) then Some (c - 87)
   else if (65 <=? c) && (c <=? 70) then Some (c - 55)
   else None)%N.

Fixpoint unhexlify (s : str) : option bytes :=
  match s with
  | [] => Some []
  | a :: b :: rest =>
      match unhex_char a, unhex_char b, unhexlify rest with
      | Some x, Some y, Some bs => Some (byte_of_N (16 * x + y) :: bs)
      | _, _, _ => None
      end
  | _ => None
  end.

Definition signing : Signing :=
  {| PrivateKey := bytes;
     from_hex := fun s =>
       match unhexlify s with
       | Some k =>
           if (List.length k =? 32)%nat then Return k
           else Raise (ParseError
                  (u "Unable to parse hex private key: wrong length"))
       | None =>
           Raise (ParseError
             (u "Unable to parse hex private key: Non-hexadecimal digit found"))
       end;
     public_key_bytes := fun k => x02 :: firstn 32 (SHA512.digest k);
     sign := fun k m => hexlify (SHA512.digest (k ++ m)) |}.

Fixpoint varint (fuel : nat) (n : N) : bytes :=
  match fuel with
  | O => []
  | S fuel' =>
      (if n <? 128 then [byte_of_N n]
       else byte_of_N (128 + n mod 128) :: varint fuel' (n / 128))%N
  end.

Definition field (tag : byte) (content : bytes) : bytes :=
  tag :: varint 10 (N.of_nat (List.length content)) ++ content.

Definition chars (s : str) : bytes :=
  match utf8_encode s with
  | Some b => b
  | None => []
  end.

Definition ser_transaction_header : Message TransactionHeader.t :=
  fun th =>
    field x0a (chars (TransactionHeader.batcher_public_key th))
    ++ flat_map (fun d => field x12 (chars d)) (TransactionHeader.dependencies th)
    ++ field x1a (chars (TransactionHeader.family_name th))
    ++ field x22 (chars (TransactionHeader.family_version th))
    ++ flat_map (fun a => field x2a (chars a)) (TransactionHeader.inputs th)
    ++ field x32 (TransactionHeader.nonce th)
    ++ flat_map (fun a => field x3a (chars a)) (TransactionHeader.outputs th)
    ++ field x4a (chars (TransactionHeader.payload_sha512 th))
    ++ field x52 (chars (TransactionHeader.signer_public_key th)).

Definition ser_transaction (t : Transaction.t) : bytes :=
  field x0a (Transaction.header t)
  ++ field x12 (chars (Transaction.header_signature t))
  ++ field x1a (Transaction.payload t).

Definition ser_batch_header : Message BatchHeader.t :=
  fun bh =>
    field x0a (chars (BatchHeader.signer_public_key bh))
    ++ flat_map (fun i => field x12 (chars i)) (BatchHeader.transaction_ids bh).

Definition ser_batch (b : Batch.t) : bytes :=
  field x0a (Batch.header b)
  ++ field x12 (chars (Batch.header_signature b))
  ++ flat_map (fun t => field x1a (ser_transaction t)) (Batch.transactions b).

Definition ser_batch_list : Message BatchList.t :=
  fun bl => flat_map (fun b => field x0a (ser_batch b)) (BatchList.batches bl).

Inductive object :=
| Text (s : str)
| Mapping (items : list (str * str)).

Fixpoint lookup (key : str) (items : list (str * str)) : outcome object :=
  match items with
  | [] => Raise (OtherException (u "KeyError") key)
  | (k, v) :: rest => if str_eqb k key then Return (Text v) else lookup key rest
  end.

Definition b64_value (c : N) : option N :=
  (if (65 <=? c) && (c <=? 90) then Some (c - 65)
   else if (97 <=? c) && (c <=? 122) then Some (c - 71)
   else if (48 <=? c) && (c <=? 57) then Some (c + 4)
   else if c =? 43 then Some 62
   else if c =? 47 then Some 63
   else None)%N.

Definition b64_quad (a b c d : N) (last : bool) : option bytes :=
  match b64_value a, b64_value b with
  | Some x, Some y =>
      let b1 := byte_of_N (4 * x + y / 16) in
      if last && (c =? 61)%N && (d =? 61)%N then Some [b1]
      else
        match b64_value c with
        | Some z =>
            let b2 := byte_of_N (16 * (y mod 16) + z / 4) in
            if last && (d =? 61)%N then Some [b1; b2]
            else
              match b64_value d with
              | Some t => Some [b1; b2; byte_of_N (64 * (z mod 4) + t)]
              | None => None
              end
        | None => None
        end
  | _, _ => None
  end.

Fixpoint b64_groups (s : str) : option bytes :=
  match s with
  | [] => Some []
  | a :: b :: c :: d :: rest =>
      match b64_quad a b c d (match rest with [] => true | _ => false end),
            b64_groups rest with
      | Some x, Some y => Some (x ++ y)
      | _, _ => None
      end
  | _ => None
  end.

Definition decoding : Decoding :=
  {| pyobject := object;
     yaml_safe_load := fun s =>
       if startswith s (u "data: ")
       then Return (Mapping [(u "data", skipn 6 s)])
       else if startswith s (u "head: ")
       then Return (Mapping [(u "head", skipn 6 s)])
       else Raise (OtherException (u "ScannerError")
                     (u "mapping values are not allowed here"));
     getitem := fun o key =>
       match o with
       | Mapping items => lookup key items
       | Text _ =>
           Raise (OtherException (u "TypeError")
                    (u "string indices must be integers"))
       end;
     b64decode := fun o =>
       match o with
       | Text s =>
           match b64_groups s with
           | Some b => Return b
           | None =>
               Raise (OtherException (u "binascii.Error")
                        (u "Incorrect padding"))
           end
       | Mapping _ =>
           Raise (OtherException (u "TypeError")
                    (u "argument should be a bytes-like object or ASCII string"))
       end |}.

Definition key_file : str := u "/root/.sawtooth/keys/jack.priv".

Definition key_hex : str :=
  u "0f1e2d3c4b5a69788796a5b4c3d2e1f00123456789abcdef0123456789abcdef".

(** A world with one key file (the key and a newline), a gateway that
    gives every request the same [answer], and the clock [readings]. *)
Definition world (answer : outcome Response) (readings : nat -> spec_float)
  : World :=
  {| files := fun path =>
       if str_eqb path key_file then Return (key_hex ++ [10%N])
       else Raise (OSError
              (u "[Errno 2] No such file or directory: '" ++ path ++ u "'"));
     gateway := fun _ _ => answer;
     clock := readings;
     ticks := 0;
     sent := [] |}.

Definition accepted : outcome Response :=
  Return {| ok := true; status_code := 202; reason := u "Accepted";
            text := u "{ link: http://localhost:8008/batch_statuses }" |}.

Definition not_found : outcome Response :=
  Return {| ok := false; status_code := 404; reason := u "Not Found";
            text := u "{ error: { code: 75 } }" |}.

Definition state_entry (b64 : str) : outcome Response :=
  Return {| ok := true; status_code := 200; reason := u "OK";
            text := u "data: " ++ b64 |}.

Definition refused : outcome Response :=
  Raise (ConnectionError (u "Connection refused")).

(** 1700000000.5, and a clock stuck on it. *)
Definition t0 : spec_float := S754_finite false 7130316802097152 (-22).

(** 1762185600.25 *)
Definition t1 : spec_float := S754_finite false 7391142111870976 (-22).

Definition stuck_clock : nat -> spec_float := fun _ => t0.

Definition running_clock : nat -> spec_float :=
  fun n => match n with O => t0 | _ => t1 end.

(** The gateway accepts everything; the clock is stuck, or runs. *)
Definition stuck : World := world accepted stuck_clock.

Definition running : World := world accepted running_clock.

(** The world [stuck] with a key file that holds the key alone. *)
Definition bare : World :=
  {| files := fun path =>
       if str_eqb path key_file then Return key_hex
       else Raise (OSError
              (u "[Errno 2] No such file or directory: '" ++ path ++ u "'"));
     gateway := fun _ _ => accepted;
     clock := stuck_clock;
     ticks := 0;
     sent := [] |}.

Definition base_url : str := u "localhost:8008".

(** The client that [__init__] builds from the key file. *)
Definition client : @SimpleWalletClient signing :=
  Eval vm_compute in
  match fst (__init__ base_url (Some key_file) (world accepted stuck_clock)) with
  | Return self => self
  | Raise _ =>
      {| _baseUrl := base_url; _signer := None;
         _publicKey := None; _address := None |}
  end.

Definition key : bytes :=
  Eval vm_compute in
  match _signer client with
  | Some s => private_key s
  | None => []
  end.

Definition public_key : str :=
  Eval vm_compute in
  match _publicKey client with
  | Some k => k
  | None => []
  end.

Definition address : str :=
  Eval vm_compute in
  match _address client with
  | Some a => a
  | None => []
  end.

(** The same client behind a base URL that names another scheme. *)
Definition https_client : @SimpleWalletClient signing :=
  {| _baseUrl := u "https://rest-api:8008"; _signer := _signer client;
     _publicKey := _publicKey client; _address := _address client |}.

End Fixture.

(** * Properties *)

(** ** Strings, digits and digests *)

Lemma is_ascii_app (a b : str) :
  is_ascii (a ++ b) = is_ascii a && is_ascii b.
Proof. apply forallb_app. Qed.

Lemma utf8_encode_ascii (s : str) :
  is_ascii s = true -> utf8_encode s = Some (map byte_of_N s).
Proof.
  induction s as [|c s IH]; simpl; [reflexivity|].
  intros H. apply andb_true_iff in H. destruct H as [Hc Hs].
  rewrite (IH Hs). unfold utf8_char.
  change (c <? 0x80)%N with (c <? 128)%N. rewrite Hc. reflexivity.
Qed.

Lemma hexchar_is_hexchar (d : N) :
  (d < 16)%N -> is_hexchar (hexchar d) = true.
Proof.
  intros H. unfold hexchar, is_hexchar.
  destruct (N.ltb_spec d 10).
  - apply orb_true_iff. left. apply andb_true_iff.
    split; apply N.leb_le; lia.
  - apply orb_true_iff. right. apply andb_true_iff.
    split; apply N.leb_le; lia.
Qed.

Lemma is_hexchar_ascii (c : N) : is_hexchar c = true -> (c <? 128)%N = true.
Proof.
  unfold is_hexchar. intros H. apply N.ltb_lt.
  apply orb_true_iff in H.
  destruct H as [H|H]; apply andb_true_iff in H; destruct H as [_ H];
    apply N.leb_le in H; lia.
Qed.

Lemma is_hex_ascii (s : str) : is_hex s = true -> is_ascii s = true.
Proof.
  unfold is_hex, is_ascii. rewrite !forallb_forall.
  intros H c Hc. apply is_hexchar_ascii. auto.
Qed.

Lemma is_hex_app (a b : str) : is_hex (a ++ b) = is_hex a && is_hex b.
Proof. apply forallb_app. Qed.

Lemma is_hex_firstn (n : nat) (s : str) :
  is_hex s = true -> is_hex (firstn n s) = true.
Proof.
  intros H. rewrite <- (firstn_skipn n s), is_hex_app in H.
  apply andb_true_iff in H. tauto.
Qed.

Lemma hex_digits_length (n : nat) (v : N) :
  List.length (hex_digits n v) = n.
Proof.
  revert v. induction n as [|n IH]; intros v; simpl; [reflexivity|].
  rewrite length_app, IH. simpl. lia.
Qed.

Lemma hex_digits_is_hex (n : nat) (v : N) : is_hex (hex_digits n v) = true.
Proof.
  revert v. induction n as [|n IH]; intros v; simpl; [reflexivity|].
  rewrite is_hex_app, IH. simpl.
  rewrite hexchar_is_hexchar; [reflexivity|].
  apply N.mod_lt. discriminate.
Qed.

Lemma hexlify_length (b : bytes) :
  List.length (hexlify b) = (2 * List.length b)%nat.
Proof.
  unfold hexlify. induction b as [|x b IH]; [reflexivity|].
  cbn [flat_map]. rewrite length_app, IH, hex_digits_length. simpl. lia.
Qed.

Lemma hexlify_is_hex (b : bytes) : is_hex (hexlify b) = true.
Proof.
  unfold hexlify. induction b as [|x b IH]; [reflexivity|].
  cbn [flat_map]. rewrite is_hex_app, IH, hex_digits_is_hex. reflexivity.
Qed.

Lemma be_bytes_length (n : nat) (v : Z) :
  List.length (SHA512.be_bytes n v) = n.
Proof.
  revert v. induction n as [|n IH]; intros v; simpl; [reflexivity|].
  rewrite length_app, IH. simpl. lia.
Qed.

(** A SHA-512 digest has 64 bytes, whatever the message. *)
Lemma digest_length (msg : bytes) : List.length (SHA512.digest msg) = 64%nat.
Proof.
  unfold SHA512.digest.
  destruct (SHA512.blocks _ _ _) as [[[[[[[a b] c] d] e] f] g] h].
  rewrite !length_app, !be_bytes_length. reflexivity.
Qed.

Lemma hash_length (data : bytes) : List.length (_hash data) = 128%nat.
Proof. unfold _hash. rewrite hexlify_length, digest_length. reflexivity. Qed.

Lemma hash_is_hex (data : bytes) : is_hex (_hash data) = true.
Proof. apply hexlify_is_hex. Qed.

(** The digest of the standard test vector and the namespace prefix of the
    transaction family. *)
Example hash_abc :
  match utf8_encode (u "abc") with
  | Some b => _hash b
  | None => []
  end =
  u ("ddaf35a193617abacc417349ae20413112e6fa4e89a97ea20a9eeee64b55d39a"
     ++ "2192992a274fc1a836ba3c23a3feebbd454d4423643ce80e2a9ac94fa54ca49f").
Proof. vm_compute. reflexivity. Qed.

Example namespace_prefix :
  match utf8_encode FAMILY_NAME with
  | Some b => firstn 6 (_hash b)
  | None => []
  end = u "7e2664".
Proof. vm_compute. reflexivity. Qed.

(** *** Decimal and hexadecimal renderings are plain ASCII *)

Lemma string_of_uint_ascii (d : Decimal.uint) :
  is_ascii (u (NilEmpty.string_of_uint d)) = true.
Proof. induction d; simpl; auto. Qed.

Lemma u_String (a : ascii) (s : string) :
  u (String a s) = N_of_ascii a :: u s.
Proof. reflexivity. Qed.

Lemma str_of_int_ascii (z : Z) : is_ascii (str_of_int z) = true.
Proof.
  unfold str_of_int, NilZero.string_of_int, NilZero.string_of_uint.
  destruct (Z.to_int z) as [d|d].
  - destruct d; first [reflexivity | apply string_of_uint_ascii].
  - rewrite u_String. change (is_ascii (?c :: ?s)) with ((c <? 128)%N && is_ascii s).
    destruct d; first [reflexivity | apply string_of_uint_ascii].
Qed.

Lemma float_hex_ascii (x : spec_float) : is_ascii (float_hex x) = true.
Proof.
  destruct x as [s|s| |s m e]; unfold float_hex.
  - destruct s; reflexivity.
  - destruct s; reflexivity.
  - reflexivity.
  - rewrite !is_ascii_app.
    rewrite (is_hex_ascii _ (hex_digits_is_hex 13 _)), str_of_int_ascii.
    destruct s; destruct (2 ^ 52 <=? Z.pos m)%Z;
      match goal with
      | |- context [(?a <? 0)%Z] => destruct (a <? 0)%Z
      end; reflexivity.
Qed.

(** The nonce of a call always exists: the rendering of a float encodes. *)
Lemma float_hex_encodes (x : spec_float) :
  utf8_encode (float_hex x) = Some (map byte_of_N (float_hex x)).
Proof. apply utf8_encode_ascii, float_hex_ascii. Qed.

Lemma startswith_prefix (a p : str) :
  startswith a p = true <-> exists rest, a = p ++ rest.
Proof.
  revert a. induction p as [|c p IH]; intros a; simpl.
  - split; [intros _; exists a; reflexivity | reflexivity].
  - destruct a as [|d a].
    + split; [discriminate | intros [rest H]; discriminate].
    + rewrite andb_true_iff, N.eqb_eq, IH. split.
      * intros [-> [rest ->]]. exists rest. reflexivity.
      * intros [rest H]. injection H as -> ->. split; [reflexivity|].
        exists rest. reflexivity.
Qed.

(** ** The client *)

Section ClientFacts.
Context {signing : Signing} {decoding : Decoding}.
Context {ser_th : Message TransactionHeader.t}
        {ser_bh : Message BatchHeader.t}
        {ser_bl : Message BatchList.t}.

(** One call of [_send_to_restapi] issues exactly one request and turns
    the transport's answer into its result. *)
Lemma send_to_restapi_run self suffix data contentType w :
  _send_to_restapi self suffix data contentType w =
  (let r := rest_request (_baseUrl self) suffix data contentType in
   (rest_result (url r) (gateway w (sent w) r), issue w r)).
Proof.
  unfold _send_to_restapi, bind, try_except, rest_request, rest_result.
  destruct data as [d|]; cbn [url];
    unfold requests_post, requests_get, requests_send;
    match goal with
    | |- context [gateway w (sent w) ?r] =>
        destruct (gateway w (sent w) r) as [resp|err]
    end;
    try (destruct (ok resp); reflexivity);
    destruct err; reflexivity.
Qed.

(** C5: [_send_to_restapi] raises exactly when the transport raises or
    the response is not [ok]; what it raises is always a
    [SimpleWalletException].  For a response that is not [ok] the message
    is ["Error <status>: <reason>"], for a connection failure it ends with
    the original message, for any other exception it is the original
    message; a response that is [ok] gives back its body text. *)
Theorem send_to_restapi_outcome self suffix data contentType w :
  let request := rest_request (_baseUrl self) suffix data contentType in
  let answer := gateway w (sent w) request in
  let result := fst (_send_to_restapi self suffix data contentType w) in
  ((exists e, result = Raise e) <->
   (exists err, answer = Raise err)
   \/ (exists r, answer = Return r /\ ok r = false))
  /\ match result with
     | Raise e => is_SimpleWalletException e = true
     | Return body => exists r, answer = Return r /\ ok r = true /\ body = text r
     end
  /\ match answer with
     | Return r =>
         if ok r then result = Return (text r)
         else exists e, result = Raise e
              /\ str_exn e = u "Error " ++ str_of_int (status_code r)
                               ++ u ": " ++ reason r
     | Raise (ConnectionError m) =>
         exists e, result = Raise e
         /\ str_exn e = u "Failed to connect to " ++ url request
                          ++ u ": " ++ m
     | Raise err => exists e, result = Raise e /\ str_exn e = str_exn err
     end.
Proof.
  intros request answer result.
  unfold result. rewrite send_to_restapi_run. cbn [fst].
  fold request. fold answer. unfold rest_result.
  destruct answer as [r|err].
  - destruct (ok r) eqn:Hok.
    + split; [|split].
      * split; [intros [e H]; discriminate|].
        intros [[err H]|[r' [H H']]]; [discriminate|].
        injection H as <-. congruence.
      * exists r. auto.
      * reflexivity.
    + split; [|split].
      * split; [|eexists; reflexivity].
        intros _. right. exists r. auto.
      * reflexivity.
      * eexists. split; reflexivity.
  - split; [|split].
    + split; [intros _; left; exists err; reflexivity|].
      intros _. destruct err; eexists; reflexivity.
    + destruct err; reflexivity.
    + destruct err; eexists; split; reflexivity.
Qed.

(** C8, as the code has it: the URL gets the prefix ["http://"] exactly
    when the base URL does not begin with ["http://"], then ["/"] and the
    suffix; the one request issued is a GET without body when no data is
    given and a POST carrying the data when data is given, with a
    [Content-Type] header exactly when a content type is passed. *)
Theorem send_to_restapi_request self suffix data contentType w :
  let base := _baseUrl self in
  let request :=
    {| method := match data with Some _ => POST | None => GET end;
       url := (if startswith base (u "http://") then base
               else u "http://" ++ base) ++ u "/" ++ suffix;
       headers := match contentType with
                  | Some ct => [(u "Content-Type", ct)]
                  | None => []
                  end;
       data := data |} in
  sent (snd (_send_to_restapi self suffix data contentType w))
    = sent w ++ [request]
  /\ (startswith base (u "http://") = true <->
      exists rest, base = u "http://" ++ rest).
Proof.
  intros base request. rewrite send_to_restapi_run. cbn [snd issue sent].
  split; [|apply startswith_prefix].
  do 2 f_equal. unfold rest_request, request, request_url. fold base.
  destruct (startswith base (u "http://")); [reflexivity|].
  rewrite <- !app_assoc. reflexivity.
Qed.

(** *** Wrapping and sending *)

Lemma new_transaction_header_run self publicKey address payload w :
  _publicKey self = Some publicKey ->
  new_transaction_header self address payload w =
  (Return (transaction_header publicKey address payload
             (map byte_of_N (float_hex (clock w (ticks w))))), tick w).
Proof.
  intros Hp.
  unfold new_transaction_header, bind, get_publicKey, time_time, encode.
  rewrite Hp. cbn [ret]. rewrite float_hex_encodes. reflexivity.
Qed.

Lemma wrap_run self key publicKey address action value payload w :
  keyed self key publicKey address ->
  utf8_encode (join (u ",") [action; py_str value]) = Some payload ->
  wrap self action value w =
  (Return (envelope key publicKey
             (transaction_header publicKey address payload
                (map byte_of_N (float_hex (clock w (ticks w)))))
             payload), tick w).
Proof.
  intros (Hs & Hp & Ha) He.
  unfold wrap, bind at 1. unfold encode. rewrite He. cbn [ret].
  unfold bind at 1. unfold get_address. rewrite Ha. cbn [ret].
  unfold bind at 1. rewrite new_transaction_header_run with (1 := Hp).
  unfold bind, signer_sign, get_publicKey. rewrite Hs, Hp. reflexivity.
Qed.

Lemma wrap_unencodable self action value w :
  utf8_encode (join (u ",") [action; py_str value]) = None ->
  wrap self action value w =
  (Raise (UnicodeEncodeError (u "surrogates not allowed")), w).
Proof.
  intros He. unfold wrap, bind, encode. rewrite He. reflexivity.
Qed.

Lemma wrap_and_send_sent self key publicKey address action value payload w :
  keyed self key publicKey address ->
  utf8_encode (join (u ",") [action; py_str value]) = Some payload ->
  snd (_wrap_and_send self action value w) =
  issue (tick w)
    (submission (_baseUrl self)
       (envelope key publicKey
          (transaction_header publicKey address payload
             (map byte_of_N (float_hex (clock w (ticks w)))))
          payload)).
Proof.
  intros Hk He. unfold _wrap_and_send, bind.
  rewrite wrap_run with (1 := Hk) (2 := He).
  rewrite send_to_restapi_run. reflexivity.
Qed.

End ClientFacts.

(** ** [str.strip()] *)

Lemma lstrip_spaces (l s : str) :
  forallb isspace l = true -> lstrip (l ++ s) = lstrip s.
Proof.
  induction l as [|c l IH]; simpl; [reflexivity|].
  intros H. apply andb_true_iff in H. destruct H as [Hc Hl].
  rewrite Hc. auto.
Qed.

Lemma lstrip_nonspace (c : N) (s : str) :
  isspace c = false -> lstrip (c :: s) = c :: s.
Proof. intros H. simpl. rewrite H. reflexivity. Qed.

Lemma rstrip_spaces (s r : str) :
  forallb isspace r = true -> rstrip (s ++ r) = rstrip s.
Proof.
  intros H. unfold rstrip. rewrite rev_app_distr, lstrip_spaces; [reflexivity|].
  rewrite forallb_forall in *. intros c Hc. apply H, in_rev, Hc.
Qed.

Lemma rstrip_nonspace (s : str) (c : N) :
  isspace c = false -> rstrip (s ++ [c]) = s ++ [c].
Proof.
  intros H. unfold rstrip. rewrite rev_app_distr. simpl. rewrite H.
  simpl. rewrite rev_involutive. reflexivity.
Qed.

Lemma trimmed_ends (s : str) :
  trimmed s = true ->
  s = [] \/ exists c s' d, s = c :: s' /\ isspace c = false
                           /\ s = removelast s ++ [d] /\ isspace d = false.
Proof.
  destruct s as [|c s']; [left; reflexivity|]. intros H. right.
  unfold trimmed in H. apply andb_true_iff in H. destruct H as [Hc Hd].
  apply negb_true_iff in Hc, Hd.
  exists c, s', (last (c :: s') c). repeat split; auto.
  apply app_removelast_last. discriminate.
Qed.

(** [strip] removes the white space around a trimmed text. *)
Lemma strip_around (l s r : str) :
  forallb isspace l = true -> forallb isspace r = true ->
  trimmed s = true -> strip (l ++ s ++ r) = s.
Proof.
  intros Hl Hr Hs. unfold strip. rewrite lstrip_spaces by exact Hl.
  destruct (trimmed_ends s Hs) as [->|(c & s' & d & Hc & Hsc & Hd & Hsd)].
  - simpl. rewrite <- (app_nil_r r), lstrip_spaces by exact Hr. reflexivity.
  - rewrite Hc at 1. rewrite <- app_comm_cons, lstrip_nonspace by exact Hsc.
    rewrite app_comm_cons, <- Hc, rstrip_spaces by exact Hr.
    rewrite Hd. apply rstrip_nonspace, Hsd.
Qed.

Lemma strip_trailing (s r : str) :
  forallb isspace r = true -> trimmed s = true -> strip (s ++ r) = s.
Proof. intros Hr Hs. apply (strip_around [] s r); auto. Qed.

Lemma lstrip_decompose (s : str) :
  exists l, s = l ++ lstrip s /\ forallb isspace l = true.
Proof.
  induction s as [|c s [l [Hs Hl]]]; [exists []; auto|].
  simpl. destruct (isspace c) eqn:Hc.
  - exists (c :: l). simpl. rewrite Hc, Hl. split; [congruence | reflexivity].
  - exists []. auto.
Qed.

Lemma rstrip_decompose (s : str) :
  exists r, s = rstrip s ++ r /\ forallb isspace r = true.
Proof.
  destruct (lstrip_decompose (rev s)) as [l [Hs Hl]].
  exists (rev l). unfold rstrip. split.
  - rewrite <- rev_app_distr, <- Hs, rev_involutive. reflexivity.
  - rewrite forallb_forall in *. intros c Hc. apply Hl, in_rev, Hc.
Qed.

Lemma lstrip_head (s : str) :
  match lstrip s with
  | [] => True
  | c :: _ => isspace c = false
  end.
Proof.
  induction s as [|c s IH]; simpl; [exact I|].
  destruct (isspace c) eqn:Hc; [exact IH | exact Hc].
Qed.

(** What [strip] returns is the text between the leading and the trailing
    white space, and it is trimmed. *)
Lemma strip_decompose (s : str) :
  exists l r, s = l ++ strip s ++ r
              /\ forallb isspace l = true /\ forallb isspace r = true
              /\ trimmed (strip s) = true.
Proof.
  destruct (lstrip_decompose s) as [l [Hs Hl]].
  destruct (rstrip_decompose (lstrip s)) as [r [Ht Hr]].
  exists l, r. fold (strip s) in Ht.
  split; [congruence|]. split; [exact Hl|]. split; [exact Hr|].
  pose proof (lstrip_head s) as Hh.
  pose proof (lstrip_head (rev (lstrip s))) as Hd.
  unfold strip, rstrip in *.
  destruct (lstrip (rev (lstrip s))) as [|d t] eqn:Hrev; [reflexivity|].
  simpl rev in *.
  assert (Hlast : forall c, last (rev t ++ [d]) c = d) by (intros; apply last_last).
  destruct (rev t ++ [d]) as [|c q] eqn:Hq.
  - reflexivity.
  - unfold trimmed. rewrite Hlast, Hd.
    rewrite Ht in Hh. simpl in Hh. rewrite Hh. reflexivity.
Qed.

(** ** Construction, address and balance *)

Section Construction.
Context {signing : Signing} {decoding : Decoding}.
Context {ser_th : Message TransactionHeader.t}
        {ser_bh : Message BatchHeader.t}
        {ser_bl : Message BatchList.t}.

Lemma make_address_run namespace publicKey ns pk w :
  utf8_encode namespace = Some ns ->
  utf8_encode publicKey = Some pk ->
  make_address namespace publicKey w =
  (Return (firstn 6 (_hash ns) ++ firstn 64 (_hash pk)), w).
Proof.
  intros Hn Hp. unfold make_address, bind, encode.
  rewrite Hn, Hp. reflexivity.
Qed.

Lemma address_shape (ns pk : bytes) :
  List.length (firstn 6 (_hash ns) ++ firstn 64 (_hash pk)) = 70%nat
  /\ is_hex (firstn 6 (_hash ns) ++ firstn 64 (_hash pk)) = true.
Proof.
  split.
  - rewrite length_app, !length_firstn, !hash_length. reflexivity.
  - rewrite is_hex_app, !is_hex_firstn by apply hash_is_hex. reflexivity.
Qed.

(** C4: the address of a namespace and a public key is
    [sha512(namespace)[0:6] + sha512(public key)[0:64]] in hexadecimal; it
    does not depend on the world, and it is a string of 70 hexadecimal
    characters. *)
Theorem address_derivation namespace publicKey ns pk w :
  utf8_encode namespace = Some ns ->
  utf8_encode publicKey = Some pk ->
  exists address,
    make_address namespace publicKey w = (Return address, w)
    /\ address = firstn 6 (hexlify (SHA512.digest ns))
                 ++ firstn 64 (hexlify (SHA512.digest pk))
    /\ (forall w', fst (make_address namespace publicKey w') = Return address)
    /\ List.length address = 70%nat
    /\ is_hex address = true.
Proof.
  intros Hn Hp. eexists. split; [apply make_address_run; eassumption|].
  split; [reflexivity|]. split.
  - intros w'. rewrite make_address_run with (1 := Hn) (2 := Hp). reflexivity.
  - apply address_shape.
Qed.

(** The public key of a signer is a hexadecimal string, so that its
    address always exists. *)
Lemma signer_address (s : Signer) w :
  make_address FAMILY_NAME (as_hex s) w =
  (Return (firstn 6 (_hash (map byte_of_N FAMILY_NAME))
           ++ firstn 64 (_hash (map byte_of_N (as_hex s)))), w).
Proof.
  apply make_address_run.
  - reflexivity.
  - apply utf8_encode_ascii, is_hex_ascii, hexlify_is_hex.
Qed.

Lemma init_run baseUrl keyFile w :
  __init__ baseUrl (Some keyFile) w =
  (match files w keyFile with
   | Raise (OSError cause) =>
       Raise (SimpleWalletException (Msg
         (u "Failed to read private key " ++ keyFile ++ u ": " ++ cause)))
   | Raise e => Raise e
   | Return contents =>
       match from_hex (strip contents) with
       | Raise (ParseError failure) =>
           Raise (SimpleWalletException (Msg
             (u "Failed to load private key: " ++ failure)))
       | Raise e => Raise e
       | Return privateKey =>
           Return
             {| _baseUrl := baseUrl;
                _signer := Some (new_signer privateKey);
                _publicKey := Some (as_hex (new_signer privateKey));
                _address :=
                  Some (firstn 6 (_hash (map byte_of_N FAMILY_NAME))
                        ++ firstn 64 (_hash (map byte_of_N
                             (as_hex (new_signer privateKey))))) |}
       end
   end, w).
Proof.
  unfold __init__, bind at 1. unfold try_except at 1.
  unfold bind at 1. unfold open_read.
  destruct (files w keyFile) as [contents|e].
  - cbn [ret]. unfold bind at 1. unfold try_except, lift.
    destruct (from_hex (strip contents)) as [k|e].
    + unfold bind. rewrite signer_address. reflexivity.
    + destruct e; reflexivity.
  - destruct e; reflexivity.
Qed.


(** C9: with a key file, [__init__] reads the file, strips the white
    space around its contents (the trailing white space in particular)
    and parses the rest as a hexadecimal secp256k1 private key.  A file
    that cannot be read ([OSError]) raises a [SimpleWalletException]
    naming the path and the cause; a key that does not parse
    ([ParseError]) raises one naming the parse failure. *)
Theorem init_key_file baseUrl keyFile w :
  match files w keyFile with
  | Raise (OSError cause) =>
      __init__ baseUrl (Some keyFile) w =
      (Raise (SimpleWalletException (Msg
         (u "Failed to read private key " ++ keyFile ++ u ": " ++ cause))), w)
  | Raise e => __init__ baseUrl (Some keyFile) w = (Raise e, w)
  | Return contents =>
      (exists l r, contents = l ++ strip contents ++ r
                   /\ forallb isspace l = true /\ forallb isspace r = true
                   /\ trimmed (strip contents) = true)
      /\ (forall key r, contents = key ++ r -> trimmed key = true ->
                        forallb isspace r = true -> strip contents = key)
      /\ match from_hex (strip contents) with
         | Raise (ParseError failure) =>
             __init__ baseUrl (Some keyFile) w =
             (Raise (SimpleWalletException (Msg
                (u "Failed to load private key: " ++ failure))), w)
         | Raise e => __init__ baseUrl (Some keyFile) w = (Raise e, w)
         | Return privateKey =>
             exists self,
               __init__ baseUrl (Some keyFile) w = (Return self, w)
               /\ _baseUrl self = baseUrl
               /\ keyed self privateKey (as_hex (new_signer privateKey))
                    (firstn 6 (_hash (map byte_of_N FAMILY_NAME))
                     ++ firstn 64 (_hash (map byte_of_N
                          (as_hex (new_signer privateKey)))))
         end
  end.
Proof.
  rewrite init_run.
  destruct (files w keyFile) as [contents|e].
  - split; [apply strip_decompose|]. split.
    + intros key r -> Hk Hr. apply strip_trailing; assumption.
    + destruct (from_hex (strip contents)) as [k|e].
      * eexists. split; [reflexivity|]. split; [reflexivity|].
        repeat split.
      * destruct e; reflexivity.
  - destruct e; reflexivity.
Qed.

End Construction.

(** ** The operations of the client *)

Section Operations.
Context {signing : Signing} {decoding : Decoding}.
Context {ser_th : Message TransactionHeader.t}
        {ser_bh : Message BatchHeader.t}
        {ser_bl : Message BatchList.t}.

Lemma send_to_restapi_raises self suffix data contentType w e w' :
  _send_to_restapi self suffix data contentType w = (Raise e, w') ->
  is_SimpleWalletException e = true.
Proof.
  rewrite send_to_restapi_run. cbn zeta. unfold rest_result.
  destruct (gateway w (sent w) _) as [r|err].
  - destruct (ok r); intros [= <- _]; reflexivity.
  - destruct err; intros [= <- _]; reflexivity.
Qed.

(** C1, as the code has it: the fetch is outside the [try].  When the
    fetch of the state entry fails, [balance] raises the
    [SimpleWalletException] of [_send_to_restapi]; when the fetch
    succeeds, [balance] never raises: it returns the decoded bytes, and
    [None] as soon as loading the document, reading its [data] field or
    decoding the base64 text raises. *)
Theorem balance_outcome self address w :
  _address self = Some address ->
  match _send_to_restapi self (u "state/" ++ address) None None w with
  | (Return result, w') =>
      exists r, balance self w = (Return r, w')
      /\ match yaml_safe_load result with
         | Raise _ => r = None
         | Return document =>
             match getitem document (u "data") with
             | Raise _ => r = None
             | Return field =>
                 match b64decode field with
                 | Raise _ => r = None
                 | Return decoded => r = Some decoded
                 end
             end
         end
  | (Raise e, w') =>
      balance self w = (Raise e, w') /\ is_SimpleWalletException e = true
  end.
Proof.
  intros Ha. unfold balance, get_address. rewrite Ha.
  unfold bind, ret, try_except, lift.
  destruct (_send_to_restapi self (u "state/" ++ address) None None w)
    as [[result|e] w'] eqn:Hsend.
  - destruct (yaml_safe_load result) as [document|e1]; [|eauto].
    destruct (getitem document (u "data")) as [field|e2]; [|eauto].
    destruct (b64decode field) as [decoded|e3]; eauto.
  - split; [reflexivity|]. eapply send_to_restapi_raises, Hsend.
Qed.

(** C6: the payload that [_wrap_and_send] submits for [(action, value)]
    is the UTF-8 encoding of ["<action>,<value>"], and the header carries
    its SHA-512 hexadecimal digest, which depends on [(action, value)]
    alone.  When the string has no UTF-8 encoding nothing is submitted. *)
Theorem payload_encoding self key publicKey address action value w :
  keyed self key publicKey address ->
  match utf8_encode (action ++ u "," ++ py_str value) with
  | Some payload =>
      exists th,
        sent (snd (_wrap_and_send self action value w)) =
        sent w ++ [submission (_baseUrl self)
                     (envelope key publicKey th payload)]
        /\ TransactionHeader.payload_sha512 th
           = hexlify (SHA512.digest payload)
  | None =>
      _wrap_and_send self action value w =
      (Raise (UnicodeEncodeError (u "surrogates not allowed")), w)
  end.
Proof.
  intros Hk.
  destruct (utf8_encode (action ++ u "," ++ py_str value))
    as [payload|] eqn:He.
  - eexists. rewrite wrap_and_send_sent with (1 := Hk) (2 := He).
    split; reflexivity.
  - unfold _wrap_and_send, bind. rewrite wrap_unencodable by exact He.
    reflexivity.
Qed.


(** C10: [deposit] and [withdraw] do not look at the value: whatever it
    is, the payload submitted is the action, a comma and [str(value)],
    encoded; only a rendering without UTF-8 encoding stops the call, in
    [str.encode]. *)
Theorem value_not_validated self key publicKey address value w :
  keyed self key publicKey address ->
  match utf8_encode (u "deposit" ++ u "," ++ py_str value) with
  | Some payload =>
      exists th,
        sent (snd (deposit self value w)) =
        sent w ++ [submission (_baseUrl self)
                     (envelope key publicKey th payload)]
  | None =>
      deposit self value w =
      (Raise (UnicodeEncodeError (u "surrogates not allowed")), w)
  end
  /\ match utf8_encode (u "withdraw" ++ u "," ++ py_str value) with
     | Some payload =>
         exists th,
           sent (snd (withdraw self value w)) =
           sent w ++ [submission (_baseUrl self)
                        (envelope key publicKey th payload)]
     | None =>
         withdraw self value w =
         (Raise (UnicodeEncodeError (u "surrogates not allowed")), w)
     end.
Proof.
  intros Hk. unfold deposit, withdraw. split.
  - destruct (utf8_encode (u "deposit" ++ u "," ++ py_str value))
      as [payload|] eqn:He.
    + eexists. rewrite wrap_and_send_sent with (1 := Hk) (2 := He).
      reflexivity.
    + unfold _wrap_and_send, bind. rewrite wrap_unencodable by exact He.
      reflexivity.
  - destruct (utf8_encode (u "withdraw" ++ u "," ++ py_str value))
      as [payload|] eqn:He.
    + eexists. rewrite wrap_and_send_sent with (1 := Hk) (2 := He).
      reflexivity.
    + unfold _wrap_and_send, bind. rewrite wrap_unencodable by exact He.
      reflexivity.
Qed.

End Operations.

(** ** The rendering of a clock reading determines the reading *)

Lemma app_same_length {A} (a b c d : list A) :
  List.length a = List.length b -> a ++ c = b ++ d -> a = b /\ c = d.
Proof.
  revert b. induction a as [|x a IH]; intros [|y b] Hl H;
    try discriminate; simpl in *.
  - auto.
  - injection H as -> H. injection Hl as Hl.
    destruct (IH b Hl H) as [-> ->]. auto.
Qed.

Lemma hexchar_inj (a b : N) :
  (a < 16)%N -> (b < 16)%N -> hexchar a = hexchar b -> a = b.
Proof.
  unfold hexchar. intros Ha Hb.
  destruct (N.ltb_spec a 10), (N.ltb_spec b 10); lia.
Qed.

Lemma hex_digits_inj (n : nat) (a b : N) :
  (a < 16 ^ N.of_nat n)%N -> (b < 16 ^ N.of_nat n)%N ->
  hex_digits n a = hex_digits n b -> a = b.
Proof.
  revert a b. induction n as [|n IH]; intros a b Ha Hb H.
  - simpl in Ha, Hb. lia.
  - rewrite Nat2N.inj_succ, N.pow_succ_r' in Ha, Hb.
    simpl in H. apply app_inj_tail in H. destruct H as [Hq Hr].
    apply hexchar_inj in Hr; try (apply N.mod_lt; discriminate).
    assert (Hqa : (a / 16 < 16 ^ N.of_nat n)%N)
      by (apply N.Div0.div_lt_upper_bound; lia).
    assert (Hqb : (b / 16 < 16 ^ N.of_nat n)%N)
      by (apply N.Div0.div_lt_upper_bound; lia).
    specialize (IH _ _ Hqa Hqb Hq).
    rewrite (N.div_mod a 16), (N.div_mod b 16) by discriminate.
    congruence.
Qed.

Lemma u_inj (s t : string) : u s = u t -> s = t.
Proof.
  unfold u. intros H.
  rewrite <- (string_of_list_ascii_of_string s),
          <- (string_of_list_ascii_of_string t).
  f_equal. revert H.
  generalize (list_ascii_of_string s) (list_ascii_of_string t).
  induction l as [|a l IH]; intros [|b l'] H; try discriminate; auto.
  simpl in H. injection H as Hab H.
  rewrite <- (ascii_N_embedding a), <- (ascii_N_embedding b), Hab.
  f_equal. auto.
Qed.

Lemma to_int_printable (z : Z) :
  Z.to_int z <> Decimal.Pos Decimal.Nil /\ Z.to_int z <> Decimal.Neg Decimal.Nil.
Proof.
  destruct z as [|p|p]; simpl; split; try discriminate;
    intros [= H]; exact (DecimalPos.Unsigned.to_uint_nonnil p H).
Qed.

Lemma str_of_int_inj (a b : Z) : str_of_int a = str_of_int b -> a = b.
Proof.
  unfold str_of_int. intros H. apply u_inj in H.
  apply DecimalZ.to_int_inj.
  destruct (to_int_printable a) as [Ha Ha'], (to_int_printable b) as [Hb Hb'].
  pose proof (NilZero.isi _ Ha Ha') as Ia.
  pose proof (NilZero.isi _ Hb Hb') as Ib.
  rewrite H in Ia. congruence.
Qed.

Lemma digits2_pos_bounds (m : positive) :
  (2 ^ (Zpos (digits2_pos m) - 1) <= Zpos m < 2 ^ Zpos (digits2_pos m))%Z.
Proof.
  induction m as [m IH|m IH|]; simpl digits2_pos.
  - rewrite Pos2Z.inj_succ.
    replace (Z.succ (Zpos (digits2_pos m)) - 1)%Z
      with (Z.succ (Zpos (digits2_pos m) - 1))%Z by lia.
    rewrite !Z.pow_succ_r by lia. lia.
  - rewrite Pos2Z.inj_succ.
    replace (Z.succ (Zpos (digits2_pos m)) - 1)%Z
      with (Z.succ (Zpos (digits2_pos m) - 1))%Z by lia.
    rewrite !Z.pow_succ_r by lia. lia.
  - simpl. lia.
Qed.

(** A finite binary64 float has a mantissa below [2^53]; it is normal, or
    its exponent is the least one. *)
Lemma binary64_finite (s : bool) (m : positive) (e : Z) :
  binary64 (S754_finite s m e) = true ->
  (Zpos m < 2 ^ 53)%Z /\ ((2 ^ 52 <= Zpos m)%Z \/ e = (-1074)%Z).
Proof.
  unfold binary64, valid_binary, bounded, canonical_mantissa, fexp, emin.
  intros H. apply andb_true_iff in H. destruct H as [H _].
  apply Z.eqb_eq in H.
  pose proof (digits2_pos_bounds m) as [Hlo Hhi].
  assert (Hd : (Zpos (digits2_pos m) <= 53)%Z) by lia.
  split.
  - eapply Z.lt_le_trans; [exact Hhi|].
    apply Z.pow_le_mono_r; lia.
  - destruct (Z.eq_dec (Zpos (digits2_pos m)) 53) as [E|E].
    + left. rewrite E in Hlo. exact Hlo.
    + right. lia.
Qed.

Lemma float_hex_finite_length (s : bool) (m : positive) (e : Z) :
  (19 <= List.length (float_hex (S754_finite s m e)))%nat.
Proof.
  unfold float_hex. rewrite !length_app, hex_digits_length.
  destruct s, (2 ^ 52 <=? Z.pos m)%Z;
    match goal with
    | |- context [(?a <? 0)%Z] => destruct (a <? 0)%Z
    end;
    cbn [List.length u list_ascii_of_string map]; lia.
Qed.

Lemma float_hex_finite_inj s1 m1 e1 s2 m2 e2 :
  binary64 (S754_finite s1 m1 e1) = true ->
  binary64 (S754_finite s2 m2 e2) = true ->
  float_hex (S754_finite s1 m1 e1) = float_hex (S754_finite s2 m2 e2) ->
  s1 = s2 /\ m1 = m2 /\ e1 = e2.
Proof.
  intros V1 V2 H.
  apply binary64_finite in V1, V2.
  destruct V1 as [B1 N1], V2 as [B2 N2].
  unfold float_hex in H.
  remember (hex_digits 13 (N.pos m1 mod 2 ^ 52)) as h1 eqn:Hh1.
  remember (hex_digits 13 (N.pos m2 mod 2 ^ 52)) as h2 eqn:Hh2.
  assert (Hlen : List.length h1 = List.length h2)
    by (subst; rewrite !hex_digits_length; reflexivity).
  remember (2 ^ 52 <=? Z.pos m1)%Z as n1 eqn:Hn1.
  remember (2 ^ 52 <=? Z.pos m2)%Z as n2 eqn:Hn2.
  remember (if n1 then (e1 + 52)%Z else (-1022)%Z) as x1 eqn:Hx1.
  remember (if n2 then (e2 + 52)%Z else (-1022)%Z) as x2 eqn:Hx2.
  remember (str_of_int (Z.abs x1)) as d1 eqn:Hd1.
  remember (str_of_int (Z.abs x2)) as d2 eqn:Hd2.
  remember (x1 <? 0)%Z as g1 eqn:Hg1.
  remember (x2 <? 0)%Z as g2 eqn:Hg2.
  change (u "-") with [45%N] in H. change (u "0x") with [48%N; 120%N] in H.
  change (u "1") with [49%N] in H. change (u "0") with [48%N] in H.
  change (u ".") with [46%N] in H. change (u "p") with [112%N] in H.
  change (u "+") with [43%N] in H.
  assert (Hs : s1 = s2).
  { destruct s1, s2; try reflexivity; cbn [app] in H; discriminate. }
  subst s2. split; [reflexivity|].
  apply app_inv_head in H. cbn [app] in H.
  injection H as H.
  assert (Hn : n1 = n2).
  { destruct n1, n2; try reflexivity; cbn [app] in H; discriminate. }
  rewrite <- Hn in *. clear Hn.
  assert (H' : h1 ++ 112%N :: (if g1 then [45%N] else [43%N]) ++ d1
             = h2 ++ 112%N :: (if g2 then [45%N] else [43%N]) ++ d2).
  { destruct n1; cbn [app] in H; injection H as H; exact H. }
  clear H. apply app_same_length in H'; [|exact Hlen].
  destruct H' as [Hh Hr]. injection Hr as Hr.
  assert (Hneg : g1 = g2).
  { destruct g1, g2; try reflexivity; cbn [app] in Hr; discriminate. }
  rewrite <- Hneg in *. clear Hneg.
  assert (Habs : Z.abs x1 = Z.abs x2).
  { apply str_of_int_inj. rewrite <- Hd1, <- Hd2.
    destruct g1; cbn [app] in Hr; injection Hr as Hr; exact Hr. }
  assert (Hx : x1 = x2).
  { destruct (Z.ltb_spec x1 0), (Z.ltb_spec x2 0); subst g1;
      try discriminate; lia. }
  assert (Hm : (N.pos m1 mod 2 ^ 52 = N.pos m2 mod 2 ^ 52)%N).
  { subst h1 h2. apply hex_digits_inj in Hh; [exact Hh| |];
      change (16 ^ N.of_nat 13)%N with (2 ^ 52)%N;
      apply N.mod_lt; discriminate. }
  clear Hh Hr Habs Hg1 Hg2 Hlen Hh1 Hh2 Hd1 Hd2.
  assert (Hz : (Z.pos m1 mod 2 ^ 52 = Z.pos m2 mod 2 ^ 52)%Z).
  { change (Z.pos m1) with (Z.of_N (N.pos m1)).
    change (Z.pos m2) with (Z.of_N (N.pos m2)).
    change (2 ^ 52)%Z with (Z.of_N (2 ^ 52)).
    rewrite <- !N2Z.inj_mod. f_equal. exact Hm. }
  subst x1 x2. symmetry in Hn1, Hn2.
  destruct n1.
  - apply Z.leb_le in Hn1, Hn2.
    assert (Q1 : (Z.pos m1 mod 2 ^ 52 = Z.pos m1 - 2 ^ 52)%Z).
    { symmetry. apply Z.mod_unique with (q := 1%Z); lia. }
    assert (Q2 : (Z.pos m2 mod 2 ^ 52 = Z.pos m2 - 2 ^ 52)%Z).
    { symmetry. apply Z.mod_unique with (q := 1%Z); lia. }
    split; [|lia]. rewrite Q1, Q2 in Hz.
    assert (Z.pos m1 = Z.pos m2) as E by lia. injection E as E. exact E.
  - apply Z.leb_gt in Hn1, Hn2.
    rewrite !Z.mod_small in Hz by lia.
    split; [injection Hz as E; exact E|].
    destruct N1 as [N1|N1], N2 as [N2|N2]; lia.
Qed.

(** [float.hex] is injective on binary64 floats. *)
Lemma float_hex_inj (x y : spec_float) :
  binary64 x = true -> binary64 y = true ->
  float_hex x = float_hex y -> x = y.
Proof.
  intros Vx Vy H.
  destruct x as [s|s| |s m e], y as [t|t| |t n f];
    try (destruct s; destruct t; first [reflexivity | discriminate]);
    try (destruct s; discriminate);
    try (destruct t; discriminate);
    try reflexivity;
    try (destruct (float_hex_finite_inj _ _ _ _ _ _ Vx Vy H) as (-> & -> & ->);
         reflexivity);
    apply (f_equal (@List.length N)) in H;
    match type of H with
    | _ = List.length (float_hex (S754_finite ?a ?b ?c)) =>
        pose proof (float_hex_finite_length a b c) as L; rewrite <- H in L
    | List.length (float_hex (S754_finite ?a ?b ?c)) = _ =>
        pose proof (float_hex_finite_length a b c) as L; rewrite H in L
    end;
    try (destruct s); try (destruct t); vm_compute in L; lia.
Qed.

Lemma byte_of_N_inj (a b : N) :
  (a < 256)%N -> (b < 256)%N -> byte_of_N a = byte_of_N b -> a = b.
Proof.
  unfold byte_of_N. intros Ha Hb. rewrite !N.mod_small by assumption.
  destruct (Byte.of_N a) as [x|] eqn:Ea;
    [|apply Byte.of_N_None_iff in Ea; lia].
  destruct (Byte.of_N b) as [y|] eqn:Eb;
    [|apply Byte.of_N_None_iff in Eb; lia].
  intros <-. apply Byte.to_of_N in Ea, Eb. congruence.
Qed.

Lemma ascii_bytes_inj (s t : str) :
  is_ascii s = true -> is_ascii t = true ->
  map byte_of_N s = map byte_of_N t -> s = t.
Proof.
  revert t. induction s as [|c s IH]; intros [|d t] Hs Ht H;
    try discriminate; [reflexivity|].
  simpl in Hs, Ht, H.
  apply andb_true_iff in Hs, Ht. destruct Hs as [Hc Hs], Ht as [Hd Ht].
  apply N.ltb_lt in Hc, Hd. injection H as Hcd H.
  f_equal; [apply byte_of_N_inj; auto; lia | auto].
Qed.

(** ** Nonces *)

Section Nonces.
Context {signing : Signing} {decoding : Decoding}.
Context {ser_th : Message TransactionHeader.t}
        {ser_bh : Message BatchHeader.t}
        {ser_bl : Message BatchList.t}.

(** C3, as the code has it: the nonce of a call is the encoded
    [float.hex()] of the clock reading of that call and nothing else.  Two
    successive calls with the same [(action, value)] whose readings are
    equal build the same header (same nonce, hence the same bytes to
    sign); when the two readings are different binary64 floats the nonces
    differ. *)
Theorem nonce_follows_clock self key publicKey address action value payload w :
  keyed self key publicKey address ->
  utf8_encode (action ++ u "," ++ py_str value) = Some payload ->
  let now1 := clock w (ticks w) in
  let now2 := clock w (S (ticks w)) in
  let w1 := snd (_wrap_and_send self action value w) in
  let w2 := snd (_wrap_and_send self action value w1) in
  exists th1 th2,
    fst (new_transaction_header self address payload w) = Return th1
    /\ fst (new_transaction_header self address payload w1) = Return th2
    /\ sent w2 =
       sent w ++ [submission (_baseUrl self) (envelope key publicKey th1 payload);
                  submission (_baseUrl self) (envelope key publicKey th2 payload)]
    /\ utf8_encode (float_hex now1) = Some (TransactionHeader.nonce th1)
    /\ utf8_encode (float_hex now2) = Some (TransactionHeader.nonce th2)
    /\ (now1 = now2 -> th1 = th2)
    /\ (binary64 now1 = true -> binary64 now2 = true -> now1 <> now2 ->
        TransactionHeader.nonce th1 <> TransactionHeader.nonce th2).
Proof.
  intros Hk He now1 now2 w1 w2.
  pose proof Hk as (Hs & Hp & Ha).
  assert (E1 : w1 = issue (tick w)
                 (submission (_baseUrl self)
                    (envelope key publicKey
                       (transaction_header publicKey address payload
                          (map byte_of_N (float_hex now1))) payload)))
    by (apply wrap_and_send_sent; assumption).
  assert (E2 : w2 = issue (tick w1)
                 (submission (_baseUrl self)
                    (envelope key publicKey
                       (transaction_header publicKey address payload
                          (map byte_of_N (float_hex (clock w1 (ticks w1)))))
                       payload)))
    by (apply wrap_and_send_sent; assumption).
  assert (C1 : clock w1 (ticks w1) = now2) by (rewrite E1; reflexivity).
  rewrite C1 in E2.
  exists (transaction_header publicKey address payload
            (map byte_of_N (float_hex now1))),
         (transaction_header publicKey address payload
            (map byte_of_N (float_hex now2))).
  split; [rewrite new_transaction_header_run with (1 := Hp); reflexivity|].
  split; [rewrite new_transaction_header_run with (1 := Hp), C1; reflexivity|].
  split.
  { rewrite E2. cbn [issue sent tick]. rewrite E1. cbn [issue sent tick].
    rewrite <- app_assoc. reflexivity. }
  split; [apply float_hex_encodes|]. split; [apply float_hex_encodes|].
  split.
  - intros ->. reflexivity.
  - intros V1 V2 Hne Heq. cbn [TransactionHeader.nonce transaction_header] in Heq.
    apply Hne, float_hex_inj; try assumption.
    apply ascii_bytes_inj; auto using float_hex_ascii.
Qed.

End Nonces.

(** * The operations on the stand-ins *)

Section Examples.
#[local] Existing Instance Fixture.signing.
#[local] Existing Instance Fixture.decoding.
#[local] Existing Instance Fixture.ser_transaction_header.
#[local] Existing Instance Fixture.ser_batch_header.
#[local] Existing Instance Fixture.ser_batch_list.

Example client_built :
  __init__ Fixture.base_url (Some Fixture.key_file)
    (Fixture.world Fixture.accepted Fixture.stuck_clock)
  = (Return Fixture.client, Fixture.world Fixture.accepted Fixture.stuck_clock).
Proof. rewrite init_run. reflexivity. Qed.

Example client_keyed :
  keyed Fixture.client Fixture.key Fixture.public_key Fixture.address.
Proof. repeat split. Qed.

Example balance_decoded :
  fst (balance Fixture.client
         (Fixture.world (Fixture.state_entry (u "MTAw")) Fixture.stuck_clock))
  = Return (Some [x31; x30; x30]).
Proof. vm_compute. reflexivity. Qed.

Example balance_missing_field :
  fst (balance Fixture.client
         (Fixture.world
            (Return {| ok := true; status_code := 200; reason := u "OK";
                       text := u "head: 7e2664" |})
            Fixture.stuck_clock))
  = Return None.
Proof. vm_compute. reflexivity. Qed.

(** The claim of C1 fails: an unreachable gateway, or a response that is
    not [ok], makes [balance] raise. *)
Lemma balance_raises_on_failed_fetch :
  fst (balance Fixture.client
         (Fixture.world Fixture.refused Fixture.stuck_clock))
  = Raise (SimpleWalletException (Msg
      (u "Failed to connect to http://localhost:8008/state/"
         ++ Fixture.address ++ u ": Connection refused")))
  /\ fst (balance Fixture.client
            (Fixture.world Fixture.not_found Fixture.stuck_clock))
     = Raise (SimpleWalletException (Exc (SimpleWalletException (Msg
         (u "Error 404: Not Found"))))).
Proof. split; vm_compute; reflexivity. Qed.

Lemma balance_outcome_witness :
  let w := Fixture.world (Fixture.state_entry (u "MTAw")) Fixture.stuck_clock in
  _address Fixture.client = Some Fixture.address
  /\ match _send_to_restapi Fixture.client
             (u "state/" ++ Fixture.address) None None w with
     | (Return result, w') =>
         exists r, balance Fixture.client w = (Return r, w')
         /\ match yaml_safe_load result with
            | Raise _ => r = None
            | Return document =>
                match getitem document (u "data") with
                | Raise _ => r = None
                | Return field =>
                    match b64decode field with
                    | Raise _ => r = None
                    | Return decoded => r = Some decoded
                    end
                end
            end
     | (Raise e, w') =>
         balance Fixture.client w = (Raise e, w')
         /\ is_SimpleWalletException e = true
     end.
Proof.
  intros w. split; [reflexivity|].
  apply (balance_outcome Fixture.client w). reflexivity.
Defined.

(** C2 does not hold of the code: [__init__] without a key file returns
    before [_address] is assigned, so that on the client it builds, in front
    of a gateway that answers every request, [balance] does not perform the
    query and [deposit] and [withdraw] do not fail with a
    [SimpleWalletException]: all three raise [AttributeError]. *)
Lemma no_key_file_operations_fail :
  let w := Fixture.world (Fixture.state_entry (u "MTAw")) Fixture.stuck_clock in
  let missing :=
    AttributeError
      (u "'SimpleWalletClient' object has no attribute '_address'") in
  exists self,
    __init__ Fixture.base_url None w = (Return self, w)
    /\ balance self w = (Raise missing, w)
    /\ deposit self (PyInt 10) w = (Raise missing, w)
    /\ withdraw self (PyInt 10) w = (Raise missing, w)
    /\ is_SimpleWalletException missing = false.
Proof.
  intros w missing. eexists. split; [reflexivity|].
  repeat split.
Qed.

(** The claim of C3 fails: with the clock on the same reading for both
    calls, two successive deposits of 10 build headers with the same
    nonce, and the two requests are the same. *)
Lemma nonce_collision_same_tick :
  let w := Fixture.world Fixture.accepted Fixture.stuck_clock in
  let w1 := snd (deposit Fixture.client (PyInt 10) w) in
  let w2 := snd (deposit Fixture.client (PyInt 10) w1) in
  let payload := Fixture.chars (u "deposit,10") in
  match fst (new_transaction_header Fixture.client Fixture.address payload w),
        fst (new_transaction_header Fixture.client Fixture.address payload w1),
        sent w2 with
  | Return th1, Return th2, [request1; request2] =>
      TransactionHeader.nonce th1 = TransactionHeader.nonce th2
      /\ TransactionHeader.nonce th1 = Fixture.chars (u "0x1.954fc40200000p+30")
      /\ request1 = request2
  | _, _, _ => False
  end.
Proof. vm_compute. repeat split. Qed.

Lemma nonce_follows_clock_witness :
  keyed Fixture.client Fixture.key Fixture.public_key Fixture.address
  /\ utf8_encode (u "deposit" ++ u "," ++ py_str (PyInt 10))
     = Some (Fixture.chars (u "deposit,10"))
  /\ binary64 (clock Fixture.running 0) = true
  /\ binary64 (clock Fixture.running 1) = true
  /\ clock Fixture.running 0 <> clock Fixture.running 1
  /\ let now1 := clock Fixture.running (ticks Fixture.running) in
     let now2 := clock Fixture.running (S (ticks Fixture.running)) in
     let w1 := snd (_wrap_and_send Fixture.client (u "deposit") (PyInt 10)
                      Fixture.running) in
     let w2 := snd (_wrap_and_send Fixture.client (u "deposit") (PyInt 10)
                      w1) in
     exists th1 th2,
       fst (new_transaction_header Fixture.client Fixture.address
              (Fixture.chars (u "deposit,10")) Fixture.running) = Return th1
       /\ fst (new_transaction_header Fixture.client Fixture.address
                 (Fixture.chars (u "deposit,10")) w1) = Return th2
       /\ sent w2 =
          sent Fixture.running
          ++ [submission (_baseUrl Fixture.client)
                (envelope Fixture.key Fixture.public_key th1
                   (Fixture.chars (u "deposit,10")));
              submission (_baseUrl Fixture.client)
                (envelope Fixture.key Fixture.public_key th2
                   (Fixture.chars (u "deposit,10")))]
       /\ utf8_encode (float_hex now1) = Some (TransactionHeader.nonce th1)
       /\ utf8_encode (float_hex now2) = Some (TransactionHeader.nonce th2)
       /\ (now1 = now2 -> th1 = th2)
       /\ (binary64 now1 = true -> binary64 now2 = true -> now1 <> now2 ->
           TransactionHeader.nonce th1 <> TransactionHeader.nonce th2).
Proof.
  split; [repeat split|]. split; [vm_compute; reflexivity|].
  split; [vm_compute; reflexivity|]. split; [vm_compute; reflexivity|].
  split; [discriminate|].
  exact (nonce_follows_clock (u "deposit") (PyInt 10) Fixture.running
           client_keyed eq_refl).
Defined.

Lemma address_derivation_witness :
  let w := Fixture.world Fixture.accepted Fixture.stuck_clock in
  let ns := Fixture.chars FAMILY_NAME in
  let pk := Fixture.chars Fixture.public_key in
  utf8_encode FAMILY_NAME = Some ns
  /\ utf8_encode Fixture.public_key = Some pk
  /\ exists address,
       make_address FAMILY_NAME Fixture.public_key w = (Return address, w)
       /\ address = firstn 6 (hexlify (SHA512.digest ns))
                    ++ firstn 64 (hexlify (SHA512.digest pk))
       /\ (forall w', fst (make_address FAMILY_NAME Fixture.public_key w')
                      = Return address)
       /\ List.length address = 70%nat
       /\ is_hex address = true.
Proof.
  intros w ns pk.
  split; [vm_compute; reflexivity|]. split; [vm_compute; reflexivity|].
  apply address_derivation; vm_compute; reflexivity.
Defined.

Lemma payload_encoding_witness :
  let w := Fixture.world Fixture.accepted Fixture.stuck_clock in
  keyed Fixture.client Fixture.key Fixture.public_key Fixture.address
  /\ match utf8_encode (u "deposit" ++ u "," ++ py_str (PyInt (-5))) with
     | Some payload =>
         exists th,
           sent (snd (_wrap_and_send Fixture.client (u "deposit")
                        (PyInt (-5)) w)) =
           sent w ++ [submission (_baseUrl Fixture.client)
                        (envelope Fixture.key Fixture.public_key th payload)]
           /\ TransactionHeader.payload_sha512 th
              = hexlify (SHA512.digest payload)
     | None =>
         _wrap_and_send Fixture.client (u "deposit") (PyInt (-5)) w =
         (Raise (UnicodeEncodeError (u "surrogates not allowed")), w)
     end.
Proof.
  intros w. split; [repeat split|].
  exact (payload_encoding (u "deposit") (PyInt (-5)) w client_keyed).
Defined.


Lemma value_not_validated_witness :
  let w := Fixture.world Fixture.accepted Fixture.stuck_clock in
  let value := PyStr (u "-3 apples") in
  keyed Fixture.client Fixture.key Fixture.public_key Fixture.address
  /\ match utf8_encode (u "deposit" ++ u "," ++ py_str value) with
     | Some payload =>
         exists th,
           sent (snd (deposit Fixture.client value w)) =
           sent w ++ [submission (_baseUrl Fixture.client)
                        (envelope Fixture.key Fixture.public_key th payload)]
     | None =>
         deposit Fixture.client value w =
         (Raise (UnicodeEncodeError (u "surrogates not allowed")), w)
     end
  /\ match utf8_encode (u "withdraw" ++ u "," ++ py_str value) with
     | Some payload =>
         exists th,
           sent (snd (withdraw Fixture.client value w)) =
           sent w ++ [submission (_baseUrl Fixture.client)
                        (envelope Fixture.key Fixture.public_key th payload)]
     | None =>
         withdraw Fixture.client value w =
         (Raise (UnicodeEncodeError (u "surrogates not allowed")), w)
     end.
Proof.
  intros w value. split; [repeat split|].
  exact (value_not_validated value w client_keyed).
Defined.

(** The claim of C8 fails: a base URL with the scheme [https] is present
    with a scheme, and still gets the prefix. *)
Lemma other_scheme_gets_prefixed :
  let w := Fixture.world Fixture.accepted Fixture.stuck_clock in
  scheme_present (u "https://rest-api:8008") = true
  /\ map url (sent (snd (_send_to_restapi Fixture.https_client
                           (u "batches") None None w)))
     = [u "http://https://rest-api:8008/batches"]
  /\ spec_request_url (u "https://rest-api:8008") (u "batches")
     = u "https://rest-api:8008/batches"
  /\ request_url (u "https://rest-api:8008") (u "batches")
     <> spec_request_url (u "https://rest-api:8008") (u "batches").
Proof. repeat split; try (vm_compute; reflexivity). discriminate. Qed.

End Examples.

(** * Further properties of the client *)

(** X1: [_hash] always returns 128 lower-case hexadecimal characters. *)
Theorem hash_hexdigest_shape (data : bytes) :
  List.length (_hash data) = 128%nat /\ is_hex (_hash data) = true.
Proof. split; [apply hash_length | apply hash_is_hex]. Qed.

Lemma family_prefix :
  firstn 6 (_hash (map byte_of_N FAMILY_NAME)) = u "7e2664".
Proof. vm_compute. reflexivity. Qed.

Lemma firstn_app_exact {A} (n : nat) (a b : list A) :
  List.length a = n -> firstn n (a ++ b) = a /\ skipn n (a ++ b) = b.
Proof.
  intros <-. split.
  - rewrite firstn_app, Nat.sub_diag, firstn_all. simpl. apply app_nil_r.
  - rewrite skipn_app, Nat.sub_diag, skipn_all. reflexivity.
Qed.

Section Coverage.
Context {signing : Signing} {decoding : Decoding}.
Context {ser_th : Message TransactionHeader.t}
        {ser_bh : Message BatchHeader.t}
        {ser_bl : Message BatchList.t}.

(** X2: whatever the base URL, the one request of [_send_to_restapi] goes
    to a URL of the form [http://<host>/<suffix>], where the host is the
    base URL without one leading [http://]. *)
Theorem request_always_http self suffix data contentType w :
  exists r host,
    sent (snd (_send_to_restapi self suffix data contentType w)) = sent w ++ [r]
    /\ url r = u "http://" ++ host ++ u "/" ++ suffix
    /\ startswith (url r) (u "http://") = true
    /\ (_baseUrl self = host \/ _baseUrl self = u "http://" ++ host).
Proof.
  rewrite send_to_restapi_run. cbn zeta. cbn [snd issue sent].
  unfold rest_request. cbn [url]. unfold request_url.
  destruct (startswith (_baseUrl self) (u "http://")) eqn:Hs.
  - apply startswith_prefix in Hs. destruct Hs as [host Hh].
    eexists _, host. split; [reflexivity|]. cbn [url]. rewrite Hh.
    split; [rewrite <- app_assoc; reflexivity|].
    split; [|right; reflexivity].
    apply startswith_prefix. eexists. rewrite <- app_assoc. reflexivity.
  - eexists _, (_baseUrl self). split; [reflexivity|]. cbn [url].
    split; [reflexivity|]. split; [|left; reflexivity].
    apply startswith_prefix. eexists. reflexivity.
Qed.

Lemma balance_run self address w :
  _address self = Some address ->
  balance self w =
  (let r := rest_request (_baseUrl self) (u "state/" ++ address) None None in
   (match rest_result (url r) (gateway w (sent w) r) with
    | Return result =>
        match yaml_safe_load result with
        | Raise _ => Return None
        | Return document =>
            match getitem document (u "data") with
            | Raise _ => Return None
            | Return field =>
                match b64decode field with
                | Raise _ => Return None
                | Return decoded => Return (Some decoded)
                end
            end
        end
    | Raise e => Raise e
    end, issue w r)).
Proof.
  intros Ha. unfold balance, get_address. rewrite Ha.
  unfold bind, ret. rewrite send_to_restapi_run. cbn zeta.
  destruct (rest_result _ _) as [result|e]; [|reflexivity].
  unfold try_except, bind, lift, ret.
  destruct (yaml_safe_load result) as [document|e1]; [|reflexivity].
  destruct (getitem document (u "data")) as [field|e2]; [|reflexivity].
  destruct (b64decode field) as [decoded|e3]; reflexivity.
Qed.

(** X3: [balance] issues exactly one request, whatever comes of it: a GET
    of [state/<address>] without headers and without body; it does not read
    the clock. *)
Theorem balance_query self address w :
  _address self = Some address ->
  sent (snd (balance self w)) =
  sent w ++ [ {| method := GET;
                 url := request_url (_baseUrl self) (u "state/" ++ address);
                 headers := [];
                 data := None |} ]
  /\ ticks (snd (balance self w)) = ticks w.
Proof.
  intros Ha. rewrite balance_run with (1 := Ha). split; reflexivity.
Qed.

(** X4: bytes returned by [balance] are the base64 decoding of the [data]
    field of the document in the body of a response that was [ok]. *)
Theorem balance_bytes_origin self address w decoded :
  _address self = Some address ->
  fst (balance self w) = Return (Some decoded) ->
  exists r document field,
    gateway w (sent w)
      (rest_request (_baseUrl self) (u "state/" ++ address) None None)
    = Return r
    /\ ok r = true
    /\ yaml_safe_load (text r) = Return document
    /\ getitem document (u "data") = Return field
    /\ b64decode field = Return decoded.
Proof.
  intros Ha. rewrite balance_run with (1 := Ha). cbn zeta. cbn [fst].
  unfold rest_result.
  destruct (gateway w (sent w) _) as [r|err].
  - destruct (ok r) eqn:Hok; [|discriminate].
    destruct (yaml_safe_load (text r)) as [document|e1] eqn:Hy; [|discriminate].
    destruct (getitem document (u "data")) as [field|e2] eqn:Hg; [|discriminate].
    destruct (b64decode field) as [b|e3] eqn:Hb; [|discriminate].
    intros [= <-]. exists r, document, field. auto.
  - destruct err; discriminate.
Qed.

(** X5: on a client with its key, a call of [_wrap_and_send] whose payload
    encodes reads the clock once and issues one request, a POST to
    [<url>/batches] of content type [application/octet-stream].  It returns
    the body text of a response that is [ok]; otherwise it raises a
    [SimpleWalletException]. *)
Theorem wrap_and_send_round_trip self key publicKey address action value payload w :
  keyed self key publicKey address ->
  utf8_encode (action ++ u "," ++ py_str value) = Some payload ->
  exists body,
    let request :=
      {| method := POST;
         url := request_url (_baseUrl self) (u "batches");
         headers := [(u "Content-Type", u "application/octet-stream")];
         data := Some body |} in
    sent (snd (_wrap_and_send self action value w)) = sent w ++ [request]
    /\ ticks (snd (_wrap_and_send self action value w)) = S (ticks w)
    /\ match gateway w (sent w) request with
       | Return r =>
           if ok r
           then fst (_wrap_and_send self action value w) = Return (text r)
           else exists e,
                  fst (_wrap_and_send self action value w) = Raise e
                  /\ is_SimpleWalletException e = true
                  /\ str_exn e = u "Error " ++ str_of_int (status_code r)
                                   ++ u ": " ++ reason r
       | Raise err =>
           exists e,
             fst (_wrap_and_send self action value w) = Raise e
             /\ is_SimpleWalletException e = true
       end.
Proof.
  intros Hk He. unfold _wrap_and_send, bind.
  rewrite wrap_run with (1 := Hk) (2 := He).
  rewrite send_to_restapi_run. unfold rest_request. cbn zeta.
  cbn [fst snd tick issue gateway sent ticks url].
  eexists. split; [reflexivity|]. split; [reflexivity|].
  unfold rest_result.
  match goal with
  | |- context [gateway w (sent w) ?r] =>
      destruct (gateway w (sent w) r) as [resp|err]
  end.
  - destruct (ok resp).
    + reflexivity.
    + eexists. split; [reflexivity|]. split; reflexivity.
  - destruct err; eexists; split; reflexivity.
Qed.

(** X6: the batch list that [wrap] builds holds one batch with one
    transaction; the transaction is signed over its serialized header, the
    batch header lists that signature as the only transaction id, and the
    batch is signed over its serialized header, all with the client's key. *)
Theorem wrap_signatures self key publicKey address action value payload w :
  keyed self key publicKey address ->
  utf8_encode (action ++ u "," ++ py_str value) = Some payload ->
  exists txn batch,
    fst (wrap self action value w) = Return {| BatchList.batches := [batch] |}
    /\ Batch.transactions batch = [txn]
    /\ Transaction.payload txn = payload
    /\ Transaction.header_signature txn = sign key (Transaction.header txn)
    /\ Batch.header batch =
       SerializeToString
         {| BatchHeader.signer_public_key := publicKey;
            BatchHeader.transaction_ids := [Transaction.header_signature txn] |}
    /\ Batch.header_signature batch = sign key (Batch.header batch).
Proof.
  intros Hk He. rewrite wrap_run with (1 := Hk) (2 := He). cbn [fst].
  unfold envelope. eexists _, _. split; [reflexivity|].
  repeat split.
Qed.

(** X7: the address of every client built from a key file lies in the
    namespace [7e2664] of the transaction family, followed by the first 64
    digits of the digest of the public key; it has 70 hexadecimal
    characters, and the public key is the hexadecimal form of the signer's
    key. *)
Theorem init_address_in_namespace baseUrl keyFile w self w' :
  __init__ baseUrl (Some keyFile) w = (Return self, w') ->
  exists key address,
    _signer self = Some (new_signer key)
    /\ _publicKey self = Some (hexlify (public_key_bytes key))
    /\ _address self = Some address
    /\ firstn 6 address = u "7e2664"
    /\ skipn 6 address
       = firstn 64 (_hash (map byte_of_N (hexlify (public_key_bytes key))))
    /\ List.length address = 70%nat
    /\ is_hex address = true.
Proof.
  rewrite init_run.
  destruct (files w keyFile) as [contents|e]; [|destruct e; discriminate].
  destruct (from_hex (strip contents)) as [key|e]; [|destruct e; discriminate].
  pose proof family_prefix as Hf.
  pose proof (address_shape (map byte_of_N FAMILY_NAME)
                (map byte_of_N (as_hex (new_signer key)))) as [Hlen Hhex].
  assert (H6 : List.length (firstn 6 (_hash (map byte_of_N FAMILY_NAME))) = 6%nat)
    by (rewrite length_firstn, hash_length; reflexivity).
  revert Hf Hlen Hhex H6.
  generalize (firstn 6 (_hash (map byte_of_N FAMILY_NAME))).
  intros prefix Hf Hlen Hhex H6 [= <- _].
  exists key. eexists. split; [reflexivity|]. split; [reflexivity|].
  split; [reflexivity|].
  destruct (firstn_app_exact prefix
              (firstn 64 (_hash (map byte_of_N (as_hex (new_signer key))))) H6)
    as [F S].
  split; [transitivity prefix; [exact F | exact Hf]|].
  split; [exact S|]. split; assumption.
Qed.

(** X8: construction from a key file never touches the gateway or the
    clock, and it succeeds exactly when the file can be read and its
    stripped contents parse as a key: deriving the address cannot fail. *)
Theorem init_succeeds_iff baseUrl keyFile w :
  snd (__init__ baseUrl (Some keyFile) w) = w
  /\ ((exists self, fst (__init__ baseUrl (Some keyFile) w) = Return self)
      <-> exists contents key,
            files w keyFile = Return contents
            /\ from_hex (strip contents) = Return key).
Proof.
  rewrite init_run. cbn [fst snd]. split; [reflexivity|].
  destruct (files w keyFile) as [contents|e].
  - destruct (from_hex (strip contents)) as [key|e] eqn:Hk.
    + split; [|eexists; reflexivity].
      intros _. exists contents, key. auto.
    + split.
      * intros [self H]. destruct e; discriminate.
      * intros (c & k & [= <-] & H). congruence.
  - split.
    + intros [self H]. destruct e; discriminate.
    + intros (c & k & H & _). discriminate.
Qed.

(** X9: white space around the key in the key file is irrelevant: the file
    gives the same client, or the same error, as a file that holds the key
    alone. *)
Theorem init_ignores_surrounding_whitespace baseUrl keyFile w w2 l k r :
  files w keyFile = Return (l ++ k ++ r) ->
  files w2 keyFile = Return k ->
  forallb isspace l = true -> forallb isspace r = true -> trimmed k = true ->
  fst (__init__ baseUrl (Some keyFile) w)
  = fst (__init__ baseUrl (Some keyFile) w2).
Proof.
  intros H1 H2 Hl Hr Hk. rewrite !init_run. cbn [fst]. rewrite H1, H2.
  rewrite (strip_around l k r Hl Hr Hk).
  replace (strip k) with k; [reflexivity|].
  symmetry. rewrite <- (app_nil_r k) at 1.
  apply (strip_around [] k []); auto.
Qed.

(** X10: an integer amount of at most 640 decimal digits always reaches
    the gateway ([str] of an int raises beyond a digit limit, 4300 by
    default and never set below 640): on a client with its key, [deposit]
    and [withdraw] of such an integer, negative ones included, submit the
    payload [deposit,<n>] or [withdraw,<n>], one byte per character. *)
Theorem int_amount_always_submitted self key publicKey address z w :
  keyed self key publicKey address ->
  (Z.abs z < 10 ^ 640)%Z ->
  (exists th,
     sent (snd (deposit self (PyInt z) w)) =
     sent w ++ [submission (_baseUrl self)
                  (envelope key publicKey th
                     (map byte_of_N (u "deposit," ++ str_of_int z)))])
  /\ (exists th,
        sent (snd (withdraw self (PyInt z) w)) =
        sent w ++ [submission (_baseUrl self)
                     (envelope key publicKey th
                        (map byte_of_N (u "withdraw," ++ str_of_int z)))]).
Proof.
  intros Hk _. unfold deposit, withdraw. split.
  - assert (He : utf8_encode (join (u ",") [u "deposit"; py_str (PyInt z)])
                 = Some (map byte_of_N (u "deposit," ++ str_of_int z))).
    { apply (utf8_encode_ascii (u "deposit," ++ str_of_int z)).
      rewrite is_ascii_app, str_of_int_ascii. reflexivity. }
    eexists. rewrite wrap_and_send_sent with (1 := Hk) (2 := He). reflexivity.
  - assert (He : utf8_encode (join (u ",") [u "withdraw"; py_str (PyInt z)])
                 = Some (map byte_of_N (u "withdraw," ++ str_of_int z))).
    { apply (utf8_encode_ascii (u "withdraw," ++ str_of_int z)).
      rewrite is_ascii_app, str_of_int_ascii. reflexivity. }
    eexists. rewrite wrap_and_send_sent with (1 := Hk) (2 := He). reflexivity.
Qed.

(** X11: the payload tells the operation and the amount: two transactions
    built for [deposit] or [withdraw] of integers carry the same payload
    only if both the action and the integer are the same. *)
Theorem payload_determines_operation self key publicKey address
    a1 a2 z1 z2 w1 w2 :
  keyed self key publicKey address ->
  In a1 [u "deposit"; u "withdraw"] ->
  In a2 [u "deposit"; u "withdraw"] ->
  exists bl1 bl2,
    fst (wrap self a1 (PyInt z1) w1) = Return bl1
    /\ fst (wrap self a2 (PyInt z2) w2) = Return bl2
    /\ (map Transaction.payload
          (flat_map Batch.transactions (BatchList.batches bl1))
        = map Transaction.payload
            (flat_map Batch.transactions (BatchList.batches bl2)) ->
        a1 = a2 /\ z1 = z2).
Proof.
  intros Hk H1 H2.
  assert (E : forall a z, In a [u "deposit"; u "withdraw"] ->
            is_ascii (a ++ u "," ++ str_of_int z) = true).
  { intros a z [<-|[<-|[]]];
      rewrite !is_ascii_app, str_of_int_ascii; reflexivity. }
  pose proof (utf8_encode_ascii _ (E a1 z1 H1)) as E1.
  pose proof (utf8_encode_ascii _ (E a2 z2 H2)) as E2.
  eexists _, _.
  rewrite wrap_run with (action := a1) (value := PyInt z1)
                        (1 := Hk) (2 := E1).
  rewrite wrap_run with (action := a2) (value := PyInt z2)
                        (1 := Hk) (2 := E2).
  split; [reflexivity|]. split; [reflexivity|].
  unfold envelope. cbn [BatchList.batches flat_map Batch.transactions app map
                        Transaction.payload].
  intros [= H].
  apply ascii_bytes_inj in H; [|apply E; assumption|apply E; assumption].
  destruct H1 as [<-|[<-|[]]], H2 as [<-|[<-|[]]].
  - apply app_inv_head in H. injection H as H.
    apply str_of_int_inj in H. auto.
  - discriminate H.
  - discriminate H.
  - apply app_inv_head in H. injection H as H.
    apply str_of_int_inj in H. auto.
Qed.

End Coverage.

(** * The further properties on the stand-ins *)

Section CoverageExamples.
#[local] Existing Instance Fixture.signing.
#[local] Existing Instance Fixture.decoding.
#[local] Existing Instance Fixture.ser_transaction_header.
#[local] Existing Instance Fixture.ser_batch_header.
#[local] Existing Instance Fixture.ser_batch_list.

Lemma balance_query_witness :
  _address Fixture.client = Some Fixture.address
  /\ (sent (snd (balance Fixture.client Fixture.stuck)) =
      sent Fixture.stuck
      ++ [ {| method := GET;
              url := request_url (_baseUrl Fixture.client)
                       (u "state/" ++ Fixture.address);
              headers := [];
              data := None |} ]
      /\ ticks (snd (balance Fixture.client Fixture.stuck))
         = ticks Fixture.stuck).
Proof.
  split; [reflexivity|].
  exact (balance_query Fixture.client Fixture.stuck eq_refl).
Defined.

Lemma balance_bytes_origin_witness :
  let w := Fixture.world (Fixture.state_entry (u "MTAw")) Fixture.stuck_clock in
  _address Fixture.client = Some Fixture.address
  /\ fst (balance Fixture.client w) = Return (Some [x31; x30; x30])
  /\ exists r document field,
       gateway w (sent w)
         (rest_request (_baseUrl Fixture.client)
            (u "state/" ++ Fixture.address) None None)
       = Return r
       /\ ok r = true
       /\ yaml_safe_load (text r) = Return document
       /\ getitem document (u "data") = Return field
       /\ b64decode field = Return [x31; x30; x30].
Proof.
  intros w. split; [reflexivity|]. split; [exact balance_decoded|].
  exact (balance_bytes_origin Fixture.client w eq_refl balance_decoded).
Defined.

Lemma wrap_and_send_round_trip_witness :
  keyed Fixture.client Fixture.key Fixture.public_key Fixture.address
  /\ utf8_encode (u "deposit" ++ u "," ++ py_str (PyInt 10))
     = Some (Fixture.chars (u "deposit,10"))
  /\ exists body,
       let request :=
         {| method := POST;
            url := request_url (_baseUrl Fixture.client) (u "batches");
            headers := [(u "Content-Type", u "application/octet-stream")];
            data := Some body |} in
       sent (snd (_wrap_and_send Fixture.client (u "deposit") (PyInt 10)
                    Fixture.stuck))
       = sent Fixture.stuck ++ [request]
       /\ ticks (snd (_wrap_and_send Fixture.client (u "deposit") (PyInt 10)
                       Fixture.stuck))
          = S (ticks Fixture.stuck)
       /\ match gateway Fixture.stuck (sent Fixture.stuck) request with
          | Return r =>
              if ok r
              then fst (_wrap_and_send Fixture.client (u "deposit") (PyInt 10)
                          Fixture.stuck) = Return (text r)
              else exists e,
                     fst (_wrap_and_send Fixture.client (u "deposit")
                            (PyInt 10) Fixture.stuck) = Raise e
                     /\ is_SimpleWalletException e = true
                     /\ str_exn e = u "Error " ++ str_of_int (status_code r)
                                      ++ u ": " ++ reason r
          | Raise err =>
              exists e,
                fst (_wrap_and_send Fixture.client (u "deposit") (PyInt 10)
                       Fixture.stuck) = Raise e
                /\ is_SimpleWalletException e = true
          end.
Proof.
  split; [exact client_keyed|]. split; [vm_compute; reflexivity|].
  exact (wrap_and_send_round_trip (u "deposit") (PyInt 10) Fixture.stuck
           client_keyed eq_refl).
Defined.

Lemma wrap_signatures_witness :
  keyed Fixture.client Fixture.key Fixture.public_key Fixture.address
  /\ utf8_encode (u "withdraw" ++ u "," ++ py_str (PyInt 3))
     = Some (Fixture.chars (u "withdraw,3"))
  /\ exists txn batch,
       fst (wrap Fixture.client (u "withdraw") (PyInt 3) Fixture.running)
       = Return {| BatchList.batches := [batch] |}
       /\ Batch.transactions batch = [txn]
       /\ Transaction.payload txn = Fixture.chars (u "withdraw,3")
       /\ Transaction.header_signature txn
          = sign Fixture.key (Transaction.header txn)
       /\ Batch.header batch =
          SerializeToString
            {| BatchHeader.signer_public_key := Fixture.public_key;
               BatchHeader.transaction_ids :=
                 [Transaction.header_signature txn] |}
       /\ Batch.header_signature batch = sign Fixture.key (Batch.header batch).
Proof.
  split; [exact client_keyed|]. split; [vm_compute; reflexivity|].
  exact (wrap_signatures (u "withdraw") (PyInt 3) Fixture.running
           client_keyed eq_refl).
Defined.

Lemma init_address_in_namespace_witness :
  __init__ Fixture.base_url (Some Fixture.key_file) Fixture.stuck
  = (Return Fixture.client, Fixture.stuck)
  /\ exists key address,
       _signer Fixture.client = Some (new_signer key)
       /\ _publicKey Fixture.client = Some (hexlify (public_key_bytes key))
       /\ _address Fixture.client = Some address
       /\ firstn 6 address = u "7e2664"
       /\ skipn 6 address
          = firstn 64 (_hash (map byte_of_N (hexlify (public_key_bytes key))))
       /\ List.length address = 70%nat
       /\ is_hex address = true.
Proof.
  split; [exact client_built|].
  exact (init_address_in_namespace Fixture.base_url Fixture.key_file
           Fixture.stuck client_built).
Defined.

Lemma init_ignores_surrounding_whitespace_witness :
  files Fixture.stuck Fixture.key_file
  = Return ([] ++ Fixture.key_hex ++ [10%N])
  /\ files Fixture.bare Fixture.key_file = Return Fixture.key_hex
  /\ forallb isspace [] = true
  /\ forallb isspace [10%N] = true
  /\ trimmed Fixture.key_hex = true
  /\ fst (__init__ Fixture.base_url (Some Fixture.key_file) Fixture.stuck)
     = fst (__init__ Fixture.base_url (Some Fixture.key_file) Fixture.bare).
Proof.
  split; [reflexivity|]. split; [reflexivity|]. split; [reflexivity|].
  split; [reflexivity|]. split; [reflexivity|].
  exact (init_ignores_surrounding_whitespace Fixture.base_url
           Fixture.key_file Fixture.stuck Fixture.bare [] [10%N]
           eq_refl eq_refl eq_refl eq_refl eq_refl).
Defined.

Lemma int_amount_always_submitted_witness :
  keyed Fixture.client Fixture.key Fixture.public_key Fixture.address
  /\ (Z.abs (-5) < 10 ^ 640)%Z
  /\ (exists th,
        sent (snd (deposit Fixture.client (PyInt (-5)) Fixture.stuck)) =
        sent Fixture.stuck
        ++ [submission (_baseUrl Fixture.client)
              (envelope Fixture.key Fixture.public_key th
                 (map byte_of_N (u "deposit," ++ str_of_int (-5))))])
  /\ (exists th,
        sent (snd (withdraw Fixture.client (PyInt (-5)) Fixture.stuck)) =
        sent Fixture.stuck
        ++ [submission (_baseUrl Fixture.client)
              (envelope Fixture.key Fixture.public_key th
                 (map byte_of_N (u "withdraw," ++ str_of_int (-5))))]).
Proof.
  split; [exact client_keyed|]. split; [reflexivity|].
  exact (int_amount_always_submitted (-5) Fixture.stuck client_keyed
           eq_refl).
Defined.

Lemma payload_determines_operation_witness :
  keyed Fixture.client Fixture.key Fixture.public_key Fixture.address
  /\ In (u "deposit") [u "deposit"; u "withdraw"]
  /\ In (u "withdraw") [u "deposit"; u "withdraw"]
  /\ exists bl1 bl2,
       fst (wrap Fixture.client (u "deposit") (PyInt 7) Fixture.stuck)
       = Return bl1
       /\ fst (wrap Fixture.client (u "withdraw") (PyInt 7) Fixture.running)
          = Return bl2
       /\ (map Transaction.payload
             (flat_map Batch.transactions (BatchList.batches bl1))
           = map Transaction.payload
               (flat_map Batch.transactions (BatchList.batches bl2)) ->
           u "deposit" = u "withdraw" /\ 7%Z = 7%Z).
Proof.
  split; [exact client_keyed|].
  split; [left; reflexivity|]. split; [right; left; reflexivity|].
  exact (payload_determines_operation 7 7 Fixture.stuck Fixture.running
           client_keyed (or_introl eq_refl) (or_intror (or_introl eq_refl))).
Defined.

End CoverageExamples.
